(** * The ewouldblock engine: fault injection in front of a wrapped engine

    A shallow embedding of [engines/ewouldblock_engine/ewouldblock_engine.cc]
    and the properties of its injection gate, its fault-injection modes, the
    suspend/resume bookkeeping and the internal DCP stream.

    Conventions.
    - A [const void*] cookie is its address, a [Z].
    - [uint32_t] and [uint64_t] values are [Z]; every arithmetic step of the
      source is followed by its wrap-around ([to_uint32], [to_uint64]).
    - [std::map] is a [gmap]; [std::queue] is a list, pushed at the back and
      popped at the front.
    - A member function that mutates the engine takes the engine state and
      returns the new one next to its result.  A reference parameter
      ([ENGINE_ERROR_CODE& err]) is passed in and returned.
    - Calls into the wrapped engine are not executed: an operation that ends
      in [return real_engine->op(...)] has the outcome [Forward]. *)

From Stdlib Require Import ZArith List Bool String Ascii Lia.
From stdpp Require Import gmap strings list fin_maps.

Local Open Scope Z_scope.

(** ** Integer types *)

Definition to_uint32 (x : Z) : Z := x mod 2 ^ 32.
Definition to_uint64 (x : Z) : Z := x mod 2 ^ 64.
(** Two's complement [int]. *)
Definition to_int32 (x : Z) : Z := (x + 2 ^ 31) mod 2 ^ 32 - 2 ^ 31.

Definition is_uint32 (x : Z) : Prop := 0 <= x < 2 ^ 32.
Definition is_uint64 (x : Z) : Prop := 0 <= x < 2 ^ 64.

(** ** Enumerations *)

(** [EWB_Engine::Cmd]. *)
Inductive Cmd : Set :=
| NONE
| GET_INFO
| ALLOCATE
| REMOVE
| GET
| STORE
| CAS
| ARITHMETIC
| LOCK
| UNLOCK
| FLUSH
| GET_STATS
| GET_META
| UNKNOWN_COMMAND.

#[global] Instance Cmd_eq_dec : EqDecision Cmd.
Proof. solve_decision. Defined.

(** Modelled from the spec: the declaration of [ENGINE_ERROR_CODE]
    (memcached/engine_error.h) is not part of the sources at hand.  The
    enumerators are the ones this file names; section 7 of the specification
    lists the same error kinds (would-block, key-exists, invalid-argument,
    not-found, not-supported, out-of-memory, failed) next to success and
    rollback. *)
Inductive ENGINE_ERROR_CODE : Set :=
| ENGINE_SUCCESS
| ENGINE_KEY_ENOENT
| ENGINE_KEY_EEXISTS
| ENGINE_ENOMEM
| ENGINE_EINVAL
| ENGINE_ENOTSUP
| ENGINE_EWOULDBLOCK
| ENGINE_ROLLBACK
| ENGINE_FAILED.

#[global] Instance ENGINE_ERROR_CODE_eq_dec : EqDecision ENGINE_ERROR_CODE.
Proof. solve_decision. Defined.

(** Modelled from the spec: [EWBEngineMode] is declared in
    ewouldblock_engine.h, which is not part of the sources at hand.  The
    enumerators are the cases of the switch in [unknown_command], which are
    the modes of the control channel in section 4.7 of the specification. *)
Inductive EWBEngineMode : Set :=
| Next_N
| Random
| First
| Sequence
| No_Notify
| CasMismatch
| IncrementClusterMapRevno
| BlockMonitorFile
| Suspend
| Resume
| SetItemCas.

(** [ENGINE_STORE_OPERATION]: the source only names [OPERATION_CAS]; every
    other enumerator is [OPERATION_OTHER] with its numeric value. *)
Inductive ENGINE_STORE_OPERATION : Set :=
| OPERATION_CAS
| OPERATION_OTHER (code : Z).

#[global] Instance ENGINE_STORE_OPERATION_eq_dec : EqDecision ENGINE_STORE_OPERATION.
Proof. solve_decision. Defined.

(** The two values of [cb::mcbp::Status] the engine replies with. *)
Inductive Status : Set :=
| Success
| Einval.

(** ** Fault injection modes

    [FaultInjectMode] and its subclasses.  Each constructor carries the
    base-class member [injected_error] and the members of the subclass. *)
Inductive FaultInjectMode : Set :=
| ErrOnFirst (injected_error : ENGINE_ERROR_CODE) (prev_cmd : Cmd)
| ErrOnNextN (injected_error : ENGINE_ERROR_CODE) (count : Z)
| ErrRandom (injected_error : ENGINE_ERROR_CODE) (percentage_to_err : Z)
| ErrSequence (injected_error : ENGINE_ERROR_CODE) (sequence pos : Z)
| ErrOnNoNotify (injected_error : ENGINE_ERROR_CODE) (issued_return_error : bool)
| CASMismatch (injected_error : ENGINE_ERROR_CODE) (count : Z).

(** The C++ constructors. *)
Definition new_ErrOnFirst (injected_error_ : ENGINE_ERROR_CODE) : FaultInjectMode :=
  ErrOnFirst injected_error_ NONE.

Definition new_ErrOnNextN (injected_error_ : ENGINE_ERROR_CODE) (count_ : Z) : FaultInjectMode :=
  ErrOnNextN injected_error_ count_.

Definition new_ErrRandom (injected_error_ : ENGINE_ERROR_CODE) (percentage_ : Z) : FaultInjectMode :=
  ErrRandom injected_error_ percentage_.

Definition new_ErrSequence (injected_error_ : ENGINE_ERROR_CODE) (sequence_ : Z) : FaultInjectMode :=
  ErrSequence injected_error_ sequence_ 0.

Definition new_ErrOnNoNotify (injected_error_ : ENGINE_ERROR_CODE) : FaultInjectMode :=
  ErrOnNoNotify injected_error_ false.

Definition new_CASMismatch (count_ : Z) : FaultInjectMode :=
  CASMismatch ENGINE_KEY_EEXISTS count_.

(** [FaultInjectMode::add_to_pending_io_ops], overridden by
    [ErrOnNoNotify] only. *)
Definition add_to_pending_io_ops (m : FaultInjectMode) : bool :=
  match m with
  | ErrOnNoNotify _ _ => false
  | _ => true
  end.

(** [ErrOnFirst::should_inject_error]. *)
Definition ErrOnFirst_should_inject_error
    (injected_error : ENGINE_ERROR_CODE) (prev_cmd : Cmd)
    (cmd : Cmd) (err : ENGINE_ERROR_CODE) : bool * ENGINE_ERROR_CODE * FaultInjectMode :=
  let inject := negb (bool_decide (prev_cmd = cmd)) in
  let prev_cmd := cmd in
  (inject, if inject then injected_error else err, ErrOnFirst injected_error prev_cmd).

(** [ErrOnNextN::should_inject_error]. *)
Definition ErrOnNextN_should_inject_error
    (injected_error : ENGINE_ERROR_CODE) (count : Z)
    (cmd : Cmd) (err : ENGINE_ERROR_CODE) : bool * ENGINE_ERROR_CODE * FaultInjectMode :=
  if 0 <? count
  then (true, injected_error, ErrOnNextN injected_error (to_uint32 (count - 1)))
  else (false, err, ErrOnNextN injected_error count).

(** [ErrRandom::should_inject_error].  [dis_gen] is the value that
    [dis(gen)] yields in this call: a draw of
    [std::uniform_int_distribution<uint32_t>(1, 100)]. *)
Definition ErrRandom_should_inject_error
    (injected_error : ENGINE_ERROR_CODE) (percentage_to_err : Z)
    (dis_gen : Z) (cmd : Cmd) (err : ENGINE_ERROR_CODE)
    : bool * ENGINE_ERROR_CODE * FaultInjectMode :=
  if dis_gen <? percentage_to_err
  then (true, injected_error, ErrRandom injected_error percentage_to_err)
  else (false, err, ErrRandom injected_error percentage_to_err).

(** [ErrSequence::should_inject_error].  [1 << pos] is an [int]; the
    bitwise and with the [uint32_t] member converts it to unsigned. *)
Definition ErrSequence_should_inject_error
    (injected_error : ENGINE_ERROR_CODE) (sequence pos : Z)
    (cmd : Cmd) (err : ENGINE_ERROR_CODE) : bool * ENGINE_ERROR_CODE * FaultInjectMode :=
  let inject := false in
  let '(inject, pos) :=
    if pos <? 32
    then (negb (Z.land sequence (to_uint32 (to_int32 (Z.shiftl 1 pos))) =? 0),
          to_uint32 (pos + 1))
    else (inject, pos) in
  (inject, if inject then injected_error else err, ErrSequence injected_error sequence pos).

(** [ErrOnNoNotify::should_inject_error]. *)
Definition ErrOnNoNotify_should_inject_error
    (injected_error : ENGINE_ERROR_CODE) (issued_return_error : bool)
    (cmd : Cmd) (err : ENGINE_ERROR_CODE) : bool * ENGINE_ERROR_CODE * FaultInjectMode :=
  if negb issued_return_error
  then (true, injected_error, ErrOnNoNotify injected_error true)
  else (false, err, ErrOnNoNotify injected_error issued_return_error).

(** [CASMismatch::should_inject_error]. *)
Definition CASMismatch_should_inject_error
    (injected_error : ENGINE_ERROR_CODE) (count : Z)
    (cmd : Cmd) (err : ENGINE_ERROR_CODE) : bool * ENGINE_ERROR_CODE * FaultInjectMode :=
  if bool_decide (cmd = CAS) && (0 <? count)
  then (true, injected_error, CASMismatch injected_error (to_uint32 (count - 1)))
  else (false, err, CASMismatch injected_error count).

(** The virtual call [mode->should_inject_error(cmd, err)]: the result, the
    value of [err] after the call, and the mode object after the call. *)
Definition FaultInjectMode_should_inject_error
    (m : FaultInjectMode) (dis_gen : Z) (cmd : Cmd) (err : ENGINE_ERROR_CODE)
    : bool * ENGINE_ERROR_CODE * FaultInjectMode :=
  match m with
  | ErrOnFirst e prev_cmd => ErrOnFirst_should_inject_error e prev_cmd cmd err
  | ErrOnNextN e count => ErrOnNextN_should_inject_error e count cmd err
  | ErrRandom e percentage => ErrRandom_should_inject_error e percentage dis_gen cmd err
  | ErrSequence e sequence pos => ErrSequence_should_inject_error e sequence pos cmd err
  | ErrOnNoNotify e issued => ErrOnNoNotify_should_inject_error e issued cmd err
  | CASMismatch e count => CASMismatch_should_inject_error e count cmd err
  end.

(** ** The engine state *)

Record EWB_Engine : Type := mkEWB_Engine {
  (** [std::map<uint64_t, std::pair<const void*, std::shared_ptr<FaultInjectMode>>>].
      Every entry owns the mode object it points to. *)
  connection_map : gmap Z (Z * FaultInjectMode);
  (** [std::map<uint32_t, const void*>] *)
  suspended_map : gmap Z Z;
  (** [std::queue<const void*>] *)
  pending_io_ops : list Z;
  (** [std::map<const void*, std::pair<bool, uint64_t>>] *)
  dcp_stream : gmap Z (bool * Z);
  (** [std::atomic_int] *)
  clustermap_revno : Z
}.

Definition set_connection_map (m : gmap Z (Z * FaultInjectMode)) (st : EWB_Engine) : EWB_Engine :=
  mkEWB_Engine m (suspended_map st) (pending_io_ops st) (dcp_stream st) (clustermap_revno st).

Definition set_suspended_map (m : gmap Z Z) (st : EWB_Engine) : EWB_Engine :=
  mkEWB_Engine (connection_map st) m (pending_io_ops st) (dcp_stream st) (clustermap_revno st).

Definition set_pending_io_ops (q : list Z) (st : EWB_Engine) : EWB_Engine :=
  mkEWB_Engine (connection_map st) (suspended_map st) q (dcp_stream st) (clustermap_revno st).

Definition set_dcp_stream (m : gmap Z (bool * Z)) (st : EWB_Engine) : EWB_Engine :=
  mkEWB_Engine (connection_map st) (suspended_map st) (pending_io_ops st) m (clustermap_revno st).

Definition set_clustermap_revno (r : Z) (st : EWB_Engine) : EWB_Engine :=
  mkEWB_Engine (connection_map st) (suspended_map st) (pending_io_ops st) (dcp_stream st) r.

(** The state the constructor [EWB_Engine::EWB_Engine] leaves. *)
Definition new_EWB_Engine : EWB_Engine :=
  mkEWB_Engine ∅ ∅ [] ∅ 1.

(** ** Suspension *)

(** [EWB_Engine::schedule_notification]: push on the queue (the condition
    variable only wakes the notification thread). *)
Definition schedule_notification (cookie : Z) (st : EWB_Engine) : EWB_Engine :=
  set_pending_io_ops (pending_io_ops st ++ [cookie]) st.

(** [EWB_Engine::suspend]. *)
Definition suspend (cookie : Z) (id : Z) (st : EWB_Engine) : bool * EWB_Engine :=
  match suspended_map st !! id with
  | None => (true, set_suspended_map (<[id := cookie]> (suspended_map st)) st)
  | Some _ => (false, st)
  end.

(** [EWB_Engine::resume]. *)
Definition resume (id : Z) (st : EWB_Engine) : bool * EWB_Engine :=
  match suspended_map st !! id with
  | None => (false, st)
  | Some cookie =>
      let st := set_suspended_map (delete id (suspended_map st)) st in
      (true, schedule_notification cookie st)
  end.

(** [EWB_Engine::is_connection_suspended]: the loop over the map returns
    true at the first entry whose value is the cookie. *)
Definition is_connection_suspended (cookie : Z) (st : EWB_Engine) : bool :=
  existsb (fun c => snd c =? cookie) (map_to_list (suspended_map st)).

(** ** Outcomes of an engine call *)

Inductive exception : Set :=
| engine_error (e : ENGINE_ERROR_CODE)   (* cb::engine_error *)
| stoull_error.                          (* std::invalid_argument, std::out_of_range *)

(** The arguments of the one call of [producers->mutation] in [step]; the
    item is always [&dcp_mutation_item]. *)
Record mutation_call : Set := mkMutationCall {
  mc_opaque : Z;
  mc_vbucket : Z;
  mc_by_seqno : Z;
  mc_rev_seqno : Z;
  mc_lock_time : Z;
  mc_nmeta : Z;
  mc_nru : Z
}.

Inductive outcome : Set :=
| Return (e : ENGINE_ERROR_CODE)   (* the engine returns [e] itself *)
| Forward                          (* [return real_engine->op(...)] *)
| Mutation (m : mutation_call)     (* [return producers->mutation(...)] *)
| Throw (ex : exception).          (* a C++ exception leaves the function *)

(** ** Strings: what [open] needs of [std::string] *)

(** [nm.rfind(":")], [None] for [npos]. *)
Fixpoint rfind (c : ascii) (s : string) : option nat :=
  match s with
  | EmptyString => None
  | String a s' =>
      match rfind c s' with
      | Some i => Some (S i)
      | None => if Ascii.eqb a c then Some 0%nat else None
      end
  end.

(** [nm.substr(pos)] for [pos <= nm.size()]. *)
Fixpoint substr (pos : nat) (s : string) : string :=
  match pos, s with
  | O, _ => s
  | S pos', String _ s' => substr pos' s'
  | S _, EmptyString => EmptyString
  end.

Definition isspace (a : ascii) : bool :=
  let n := Z.of_nat (nat_of_ascii a) in
  (n =? 32) || ((9 <=? n) && (n <=? 13)).

Definition digit_value (a : ascii) : option Z :=
  let n := Z.of_nat (nat_of_ascii a) in
  if (48 <=? n) && (n <=? 57) then Some (n - 48) else None.

Fixpoint skip_space (s : string) : string :=
  match s with
  | String a s' => if isspace a then skip_space s' else s
  | EmptyString => s
  end.

Fixpoint read_digits (acc : Z) (s : string) : Z :=
  match s with
  | String a s' =>
      match digit_value a with
      | Some d => read_digits (acc * 10 + d) s'
      | None => acc
      end
  | EmptyString => acc
  end.

(** [std::stoull(str)], base 10: leading white space, an optional sign, the
    longest run of digits.  [None] when it throws: no digit
    ([std::invalid_argument]) or a value beyond [uint64_t]
    ([std::out_of_range]).  A minus sign negates in [uint64_t]. *)
Definition stoull (str : string) : option Z :=
  let s := skip_space str in
  let '(neg, s) :=
    match s with
    | String "-"%char s' => (true, s')
    | String "+"%char s' => (false, s')
    | _ => (false, s)
    end in
  match s with
  | String a _ =>
      match digit_value a with
      | Some _ =>
          let v := read_digits 0 s in
          if v <? 2 ^ 64 then Some (if neg then to_uint64 (- v) else v) else None
      | None => None
      end
  | EmptyString => None
  end.

(** ** Concrete engines *)

(** A server whose connection ids are the cookie addresses divided by 16:
    cookies 16 and 17 belong to connection 1. *)
Definition example_connection_id (cookie : Z) : Z := cookie / 16.

(** An engine with cookie 16 suspended under token 7, and connection 1
    registered under cookie 17 with [ErrOnNextN]. *)
Definition example_engine : EWB_Engine :=
  mkEWB_Engine {[ 1 := (17, new_ErrOnNextN ENGINE_EWOULDBLOCK 2) ]}
               {[ 7 := 16 ]} [] ∅ 1.

(** A fresh engine with connection 1 registered under cookie 17 with mode
    [m]. *)
Definition engine_with_mode (m : FaultInjectMode) : EWB_Engine :=
  mkEWB_Engine {[ 1 := (17, m) ]} ∅ [] ∅ 1.

(** A fresh engine in which cookie 16 has an internal stream. *)
Definition engine_with_stream (started : bool) (count : Z) : EWB_Engine :=
  mkEWB_Engine ∅ ∅ [] {[ 16 := (started, count) ]} 1.

(** ** Decimal numerals, for the names of internal streams *)

Definition digit_char (d : Z) : ascii :=
  match d with
  | 0 => "0" | 1 => "1" | 2 => "2" | 3 => "3" | 4 => "4"
  | 5 => "5" | 6 => "6" | 7 => "7" | 8 => "8" | _ => "9"
  end%char.

(** The decimal digits of [n], most significant first, in front of [acc];
    [fuel] bounds the number of digits. *)
Fixpoint decimal_acc (fuel : nat) (n : Z) (acc : string) : string :=
  match fuel with
  | O => acc
  | S fuel =>
      let acc := String (digit_char (n mod 10)) acc in
      if n <? 10 then acc else decimal_acc fuel (n / 10) acc
  end.

(** The decimal numeral of a [uint64_t], which has at most 20 digits. *)
Definition decimal (n : Z) : string := decimal_acc 20 n EmptyString.

(** The name [ewb_internal:<count>] of an internal stream. *)
Definition stream_name (count : Z) : string :=
  ("ewb_internal:" ++ decimal count)%string.

(** A string made of decimal digits only. *)
Fixpoint all_digits (s : string) : Prop :=
  match s with
  | EmptyString => True
  | String a s' => (exists d, 0 <= d < 10 /\ a = digit_char d) /\ all_digits s'
  end.

(** ** The notification thread *)

(** One turn of the inner loop of [EWB_Engine::process_notifications]: with
    the queue not empty, [front()], [pop()] and, the lock released, the call
    [notify_io_complete(cookie, ENGINE_SUCCESS)], which is the first
    component.  With the queue empty the loop is left: no call. *)
Definition process_notification (st : EWB_Engine)
    : option (Z * ENGINE_ERROR_CODE) * EWB_Engine :=
  match pending_io_ops st with
  | [] => (None, st)
  | cookie :: rest => (Some (cookie, ENGINE_SUCCESS), set_pending_io_ops rest st)
  end.

(** The inner loop [while (!pending_io_ops.empty())] of
    [EWB_Engine::process_notifications] while no other thread queues a
    cookie: the calls of [notify_io_complete] in order.  [None] when the
    fuel ends before the loop does. *)
Fixpoint process_notifications (fuel : nat) (st : EWB_Engine)
    : option (list (Z * ENGINE_ERROR_CODE) * EWB_Engine) :=
  match process_notification st with
  | (None, st) => Some ([], st)
  | (Some n, st) =>
      match fuel with
      | O => None
      | S fuel =>
          match process_notifications fuel st with
          | Some (ns, st) => Some (n :: ns, st)
          | None => None
          end
      end
  end.

(** What touches the queue, one step under the mutex each: a thread that
    runs [schedule_notification(cookie)], or the notification thread that
    makes one turn of its inner loop.  Every run of the engine interleaves
    these steps in some order. *)
Inductive queue_action : Set :=
| Schedule (cookie : Z)
| Notify.

Fixpoint run_queue (actions : list queue_action) (st : EWB_Engine)
    : list (Z * ENGINE_ERROR_CODE) * EWB_Engine :=
  match actions with
  | [] => ([], st)
  | Schedule cookie :: actions => run_queue actions (schedule_notification cookie st)
  | Notify :: actions =>
      let '(n, st) := process_notification st in
      let '(ns, st) := run_queue actions st in
      (match n with Some n => n :: ns | None => ns end, st)
  end.

(** The cookies scheduled by [actions], in order. *)
Fixpoint scheduled (actions : list queue_action) : list Z :=
  match actions with
  | [] => []
  | Schedule cookie :: actions => cookie :: scheduled actions
  | Notify :: actions => scheduled actions
  end.

(** ** The block monitor *)

(** The members [id] and [file] of a [BlockMonitorThread]. *)
Record BlockMonitorThread : Set := mkBlockMonitorThread {
  bmt_id : Z;
  bmt_file : string
}.

(** [BlockMonitorThread::run].  [polls] are the answers of
    [cb::io::isFile(file)] the loop gets, one per turn; [st] is the engine
    when the loop ends and [engine.resume(id)] runs.  [None] while every
    answer so far was true: the thread still sleeps and polls. *)
Fixpoint BlockMonitorThread_run (polls : list bool) (t : BlockMonitorThread)
    (st : EWB_Engine) : option EWB_Engine :=
  match polls with
  | [] => None
  | true :: polls => BlockMonitorThread_run polls t st
  | false :: _ => Some (resume (bmt_id t) st).2
  end.

Module Handlers.

(** [EWB_Engine::handleBlockMonitorFile].  [isFile] is [cb::io::isFile] at
    the time of the call; [thread_started] tells whether creating and
    starting the thread went without a [std::exception]; [threads] is the
    vector of the engine's threads, before and after. *)
Definition handleBlockMonitorFile (isFile : string -> bool) (thread_started : bool)
    (cookie id : Z) (file : string) (st : EWB_Engine) (threads : list BlockMonitorThread)
    : outcome * option Status * EWB_Engine * list BlockMonitorThread :=
  if bool_decide (file = EmptyString) then (Return ENGINE_EINVAL, None, st, threads)
  else if negb (isFile file) then (Return ENGINE_KEY_ENOENT, None, st, threads)
  else
    let '(ok, st) := suspend cookie id st in
    if negb ok then (Return ENGINE_KEY_EEXISTS, None, st, threads)
    else if negb thread_started then (Return ENGINE_FAILED, None, st, threads)
    else (Return ENGINE_SUCCESS, Some Success, st,
          threads ++ [mkBlockMonitorThread id file]).

(** [EWB_Engine::setItemCas].  [LOCKED_CAS] is the constant of that name;
    [rv_first] is the status of [real_engine->get(cookie, key, Vbid(0),
    DocStateFilter::Alive)].  The last component is the value handed to
    [real_engine->item_set_cas], if it is called. *)
Definition setItemCas (LOCKED_CAS : Z) (rv_first : ENGINE_ERROR_CODE)
    (cookie : Z) (key : string) (cas : Z) (st : EWB_Engine)
    : outcome * option Status * EWB_Engine * option Z :=
  let cas64 := cas in
  let cas64 := if cas =? to_uint32 (-1) then LOCKED_CAS else cas64 in
  if negb (bool_decide (rv_first = ENGINE_SUCCESS))
  then (Return rv_first, None, st, None)
  else (Return ENGINE_SUCCESS, Some Success, st, Some cas64).

End Handlers.

(** The two handlers in a world where every file exists, threads start,
    and the wrapped engine finds every key. *)
Definition example_handleBlockMonitorFile (cookie id : Z) (file : string)
    (st : EWB_Engine) : outcome * option Status * EWB_Engine :=
  (Handlers.handleBlockMonitorFile (fun _ => true) true cookie id file st []).1.

Definition example_setItemCas (cookie : Z) (key : string) (cas : Z)
    (st : EWB_Engine) : outcome * option Status * EWB_Engine :=
  (Handlers.setItemCas (2 ^ 64 - 1) ENGINE_SUCCESS cookie key cas st).1.

(** ** Loading the real engine *)

(** [config.find(";")], [None] for [npos]. *)
Fixpoint find (c : ascii) (s : string) : option nat :=
  match s with
  | EmptyString => None
  | String a s' =>
      if Ascii.eqb a c then Some 0%nat
      else match find c s' with
           | Some i => Some (S i)
           | None => None
           end
  end.

(** The first statements of [EWB_Engine::initialize]: the name of the real
    engine to load and the configuration handed to it, from
    [config_str]. *)
Definition initialize_config (config_str : string) : string * string :=
  let config := config_str in
  let seperator := find ";"%char config in
  let real_engine_name :=
    match seperator with
    | Some n => substring 0 n config
    | None => config
    end in
  let real_engine_config :=
    match seperator with
    | Some n => substr (n + 1) config
    | None => EmptyString
    end in
  (real_engine_name, real_engine_config).

(** ** Names of commands *)

(** [EWB_Engine::to_string(Cmd)]; the [throw] after the switch is for values
    that are no enumerator. *)
Definition to_string (cmd : Cmd) : string :=
  match cmd with
  | NONE => "NONE"
  | GET_INFO => "GET_INFO"
  | GET_META => "GET_META"
  | ALLOCATE => "ALLOCATE"
  | REMOVE => "REMOVE"
  | GET => "GET"
  | STORE => "STORE"
  | CAS => "CAS"
  | ARITHMETIC => "ARITHMETIC"
  | FLUSH => "FLUSH"
  | GET_STATS => "GET_STATS"
  | UNKNOWN_COMMAND => "UNKNOWN_COMMAND"
  | LOCK => "LOCK"
  | UNLOCK => "UNLOCK"
  end.

(** ** Reading outcomes *)

(** The mode the switch of [unknown_command] constructs for [mode];
    [None] for the modes that install none. *)
Definition new_mode (mode : EWBEngineMode) (value : Z)
    (injected_error : ENGINE_ERROR_CODE) : option FaultInjectMode :=
  match mode with
  | Next_N => Some (new_ErrOnNextN injected_error value)
  | Random => Some (new_ErrRandom injected_error value)
  | First => Some (new_ErrOnFirst injected_error)
  | Sequence => Some (new_ErrSequence injected_error value)
  | No_Notify => Some (new_ErrOnNoNotify injected_error)
  | CasMismatch => Some (new_CASMismatch value)
  | _ => None
  end.

Definition is_would_block (o : outcome) : bool :=
  match o with
  | Return ENGINE_EWOULDBLOCK => true
  | _ => false
  end.

(** How many of the outcomes are a would-block return. *)
Definition would_block_returns (outs : list outcome) : nat :=
  length (List.filter is_would_block outs).

Section Engine.

(** [real_api->cookie->get_connection_id]: the id of the connection a
    cookie belongs to, as the server reports it. *)
Variable get_connection_id : Z -> Z.

(** [real_engine_dcp != nullptr]: does the wrapped engine implement
    [DcpIface]?  Fixed by [initialize]. *)
Variable real_engine_dcp : bool.

(** Two handlers of the control channel are not embedded: they depend on the
    file system and on threads ([handleBlockMonitorFile]) and on the result
    of the wrapped engine ([setItemCas]).  [unknown_command] dispatches to
    them as the source does. *)
Variable handleBlockMonitorFile :
  Z -> Z -> string -> EWB_Engine -> outcome * option Status * EWB_Engine.
Variable setItemCas :
  Z -> string -> Z -> EWB_Engine -> outcome * option Status * EWB_Engine.

(** ** The injection gate *)

(** [EWB_Engine::should_inject_error].  [dis_gen] is the draw of the random
    mode, should the mode of the connection be [ErrRandom]. *)
Definition should_inject_error
    (dis_gen : Z) (cmd : Cmd) (cookie : Z) (err : ENGINE_ERROR_CODE)
    (st : EWB_Engine) : bool * ENGINE_ERROR_CODE * EWB_Engine :=
  if is_connection_suspended cookie st then (true, ENGINE_EWOULDBLOCK, st)
  else
    let id := get_connection_id cookie in
    match connection_map st !! id with
    | None => (false, err, st)
    | Some (first, second) =>
        if negb (first =? cookie)
        then (false, err, set_connection_map (delete id (connection_map st)) st)
        else
          let '(inject, err, second) :=
            FaultInjectMode_should_inject_error second dis_gen cmd err in
          let add_to_pending_io_ops := add_to_pending_io_ops second in
          let st := set_connection_map (<[id := (first, second)]> (connection_map st)) st in
          if inject && bool_decide (err = ENGINE_EWOULDBLOCK) && add_to_pending_io_ops
          then (inject, err, schedule_notification first st)
          else (inject, err, st)
    end.

(** ** Engine operations

    Only the arguments that decide the control flow are kept; the others
    are handed to the wrapped engine unchanged. *)

(** The shape shared by [allocate], [remove], [get], [get_locked],
    [unlock], [get_meta], [store], [store_if], [get_stats] and the wrapped
    branch of [unknown_command]: [err] starts as [ENGINE_SUCCESS]. *)
Definition gated (dis_gen : Z) (cmd : Cmd) (cookie : Z) (st : EWB_Engine)
    : outcome * EWB_Engine :=
  let err := ENGINE_SUCCESS in
  let '(inject, err, st) := should_inject_error dis_gen cmd cookie err st in
  if inject then (Return err, st) else (Forward, st).

Definition allocate (dis_gen cookie : Z) := gated dis_gen ALLOCATE cookie.
Definition remove (dis_gen cookie : Z) := gated dis_gen REMOVE cookie.
Definition get (dis_gen cookie : Z) := gated dis_gen GET cookie.
Definition get_locked (dis_gen cookie : Z) := gated dis_gen LOCK cookie.
Definition unlock (dis_gen cookie : Z) := gated dis_gen UNLOCK cookie.
Definition get_meta (dis_gen cookie : Z) := gated dis_gen GET_META cookie.
Definition get_stats (dis_gen cookie : Z) := gated dis_gen GET_STATS cookie.

(** [EWB_Engine::allocate_ex] throws the injected error. *)
Definition allocate_ex (dis_gen cookie : Z) (st : EWB_Engine) : outcome * EWB_Engine :=
  let err := ENGINE_SUCCESS in
  let '(inject, err, st) := should_inject_error dis_gen ALLOCATE cookie err st in
  if inject then (Throw (engine_error err), st) else (Forward, st).

(** [EWB_Engine::get_if] and [EWB_Engine::get_and_touch] answer
    would-block whatever the injected error is. *)
Definition get_if (dis_gen cookie : Z) (st : EWB_Engine) : outcome * EWB_Engine :=
  let err := ENGINE_SUCCESS in
  let '(inject, err, st) := should_inject_error dis_gen GET cookie err st in
  if inject then (Return ENGINE_EWOULDBLOCK, st) else (Forward, st).

Definition get_and_touch (dis_gen cookie : Z) (st : EWB_Engine) : outcome * EWB_Engine :=
  let err := ENGINE_SUCCESS in
  let '(inject, err, st) := should_inject_error dis_gen GET cookie err st in
  if inject then (Return ENGINE_EWOULDBLOCK, st) else (Forward, st).

(** [EWB_Engine::store]. *)
Definition store (dis_gen cookie : Z) (operation : ENGINE_STORE_OPERATION)
    (st : EWB_Engine) : outcome * EWB_Engine :=
  let opcode := if bool_decide (operation = OPERATION_CAS) then CAS else STORE in
  gated dis_gen opcode cookie st.

(** [EWB_Engine::store_if]. *)
Definition store_if (dis_gen cookie : Z) (operation : ENGINE_STORE_OPERATION)
    (st : EWB_Engine) : outcome * EWB_Engine :=
  let opcode := if bool_decide (operation = OPERATION_CAS) then CAS else STORE in
  gated dis_gen opcode cookie st.

(** [EWB_Engine::flush] is not gated. *)
Definition flush (cookie : Z) (st : EWB_Engine) : outcome * EWB_Engine :=
  (Forward, st).

(** ** The control channel *)

(** [EWB_Engine::handleSuspend]. *)
Definition handleSuspend (cookie id : Z) (st : EWB_Engine)
    : outcome * option Status * EWB_Engine :=
  let '(ok, st) := suspend cookie id st in
  if ok then (Return ENGINE_SUCCESS, Some Success, st)
  else (Return ENGINE_KEY_EEXISTS, None, st).

(** [EWB_Engine::handleResume]. *)
Definition handleResume (cookie id : Z) (st : EWB_Engine)
    : outcome * option Status * EWB_Engine :=
  let '(ok, st) := resume id st in
  if ok then (Return ENGINE_SUCCESS, Some Success, st)
  else (Return ENGINE_EINVAL, None, st).

(** A request as [unknown_command] reads it: the control opcode with its
    payload, or any other opcode.  [mode] is [None] for a mode byte that is
    no enumerator of [EWBEngineMode]. *)
Inductive Request : Set :=
| EwouldblockCtl (mode : option EWBEngineMode) (value : Z)
                 (injected_error : ENGINE_ERROR_CODE) (key : string)
| OtherOpcode.

(** [EWB_Engine::unknown_command].  The result carries the status handed to
    the [response] callback, if it is called.  Allocation failure
    ([std::bad_alloc]) is left out. *)
Definition unknown_command (dis_gen cookie : Z) (req : Request) (st : EWB_Engine)
    : outcome * option Status * EWB_Engine :=
  match req with
  | EwouldblockCtl mode value injected_error key =>
      let install (new_mode : FaultInjectMode) :=
        let id := get_connection_id cookie in
        let m := delete id (connection_map st) in
        let m := <[id := (cookie, new_mode)]> m in
        (Return ENGINE_SUCCESS, Some Success, set_connection_map m st) in
      match mode with
      | Some Next_N => install (new_ErrOnNextN injected_error value)
      | Some Random => install (new_ErrRandom injected_error value)
      | Some First => install (new_ErrOnFirst injected_error)
      | Some Sequence => install (new_ErrSequence injected_error value)
      | Some No_Notify => install (new_ErrOnNoNotify injected_error)
      | Some CasMismatch => install (new_CASMismatch value)
      | Some IncrementClusterMapRevno =>
          (Return ENGINE_SUCCESS, Some Success,
           set_clustermap_revno (to_int32 (clustermap_revno st + 1)) st)
      | Some BlockMonitorFile => handleBlockMonitorFile cookie value key st
      | Some Suspend => handleSuspend cookie value st
      | Some Resume => handleResume cookie value st
      | Some SetItemCas => setItemCas cookie key value st
      | None => (Return ENGINE_FAILED, Some Einval, st)
      end
  | OtherOpcode =>
      let '(r, st) := gated dis_gen UNKNOWN_COMMAND cookie st in
      (r, None, st)
  end.

(** [EWB_Engine::handle_disconnect]. *)
Definition handle_disconnect (cookie : Z) (st : EWB_Engine) : EWB_Engine :=
  let id := get_connection_id cookie in
  set_connection_map (delete id (connection_map st)) st.

(** ** The internal DCP stream *)

(** The call [producers->mutation(0xdeadbeef, &dcp_mutation_item, Vbid(0),
    0, 0, 0, nullptr, 0, 0, {})]. *)
Definition canned_mutation : mutation_call :=
  mkMutationCall 0xdeadbeef 0 0 0 0 0 0.

(** [EWB_Engine::step]. *)
Definition step (cookie : Z) (st : EWB_Engine) : outcome * EWB_Engine :=
  match dcp_stream st !! cookie with
  | Some (first, count) =>
      if first && (0 <? count)
      then (Mutation canned_mutation,
            set_dcp_stream (<[cookie := (first, to_uint64 (count - 1))]> (dcp_stream st)) st)
      else (Return ENGINE_EWOULDBLOCK, st)
  | None =>
      if negb real_engine_dcp then (Return ENGINE_ENOTSUP, st) else (Forward, st)
  end.

(** [EWB_Engine::open]. *)
Definition open (cookie : Z) (name : string) (st : EWB_Engine) : outcome * EWB_Engine :=
  let nm := name in
  if String.prefix "ewb_internal" nm
  then
    match rfind ":"%char nm with
    | Some idx =>
        match stoull (substr (idx + 1) nm) with
        | Some n => (Return ENGINE_SUCCESS,
                     set_dcp_stream (<[cookie := (false, n)]> (dcp_stream st)) st)
        | None => (Throw stoull_error, st)
        end
    | None =>
        (Return ENGINE_SUCCESS,
         set_dcp_stream (<[cookie := (false, 2 ^ 64 - 1)]> (dcp_stream st)) st)
    end
  else if negb real_engine_dcp then (Return ENGINE_ENOTSUP, st) else (Forward, st).

(** [EWB_Engine::stream_req]; [rollback_seqno] is the cell the pointer
    argument designates, before and after the call. *)
Definition stream_req (cookie start_seqno rollback_seqno : Z) (st : EWB_Engine)
    : outcome * Z * EWB_Engine :=
  match dcp_stream st !! cookie with
  | Some (first, second) =>
      if start_seqno =? 1 then (Return ENGINE_ROLLBACK, 0, st)
      else (Return ENGINE_SUCCESS, rollback_seqno,
            set_dcp_stream (<[cookie := (true, second)]> (dcp_stream st)) st)
  | None =>
      if negb real_engine_dcp then (Return ENGINE_ENOTSUP, rollback_seqno, st)
      else (Forward, rollback_seqno, st)
  end.

(** ** DCP operations the engine only hands down *)

(** The body shared by [add_stream], [close_stream], [get_failover_log],
    [stream_end], [snapshot_marker], [mutation], [deletion],
    [deletion_v2], [expiration], [set_vbucket_state], [noop],
    [buffer_acknowledgement], [control], [response_handler],
    [system_event], [prepare], [seqno_acknowledged], [commit] and
    [abort]. *)
Definition dcp_hand_down (cookie : Z) (st : EWB_Engine) : outcome * EWB_Engine :=
  if negb real_engine_dcp then (Return ENGINE_ENOTSUP, st) else (Forward, st).

Definition add_stream := dcp_hand_down.
Definition close_stream := dcp_hand_down.
Definition stream_end := dcp_hand_down.
Definition noop := dcp_hand_down.

(** What a DCP connection does with its stream: a [step] or a
    [stream_req] with the given start sequence number. *)
Inductive dcp_action : Set :=
| DcpStep
| DcpStreamReq (start_seqno : Z).

Fixpoint run_dcp (cookie : Z) (actions : list dcp_action) (st : EWB_Engine)
    : list outcome * EWB_Engine :=
  match actions with
  | [] => ([], st)
  | DcpStep :: actions =>
      let '(o, st) := step cookie st in
      let '(os, st) := run_dcp cookie actions st in
      (o :: os, st)
  | DcpStreamReq start_seqno :: actions =>
      let '(o, _, st) := stream_req cookie start_seqno 0 st in
      let '(os, st) := run_dcp cookie actions st in
      (o :: os, st)
  end.

(** How many of the first [i] actions are calls of [step]. *)
Fixpoint steps_before (i : nat) (actions : list dcp_action) : nat :=
  match i, actions with
  | S i, DcpStep :: actions => S (steps_before i actions)
  | S i, DcpStreamReq _ :: actions => steps_before i actions
  | _, _ => O
  end.

(** ** Sequences of calls *)

(** The gated operations a connection issues one after the other on one
    cookie, each with the draw of that call and its command; the outcomes in
    order, and the engine afterwards. *)
Fixpoint run_gated (cookie : Z) (calls : list (Z * Cmd)) (st : EWB_Engine)
    : list outcome * EWB_Engine :=
  match calls with
  | [] => ([], st)
  | (dis_gen, cmd) :: calls =>
      let '(o, st) := gated dis_gen cmd cookie st in
      let '(os, st) := run_gated cookie calls st in
      (o :: os, st)
  end.

(** The same calls made on a mode object alone, as the gate makes them for a
    connection that is registered and not suspended. *)
Fixpoint run_mode (m : FaultInjectMode) (calls : list (Z * Cmd))
    : list outcome * FaultInjectMode :=
  match calls with
  | [] => ([], m)
  | (dis_gen, cmd) :: calls =>
      let '(inject, err, m) :=
        FaultInjectMode_should_inject_error m dis_gen cmd ENGINE_SUCCESS in
      let '(os, m) := run_mode m calls in
      ((if inject then Return err else Forward) :: os, m)
  end.

(** [k] calls of [step] in a row on one cookie. *)
Fixpoint run_step (cookie : Z) (k : nat) (st : EWB_Engine) : list outcome * EWB_Engine :=
  match k with
  | O => ([], st)
  | S k =>
      let '(o, st) := step cookie st in
      let '(os, st) := run_step cookie k st in
      (o :: os, st)
  end.

(** The connection of [cookie] is registered with mode [m] under this very
    cookie, and the cookie is not suspended. *)
Definition installed (cookie : Z) (m : FaultInjectMode) (st : EWB_Engine) : Prop :=
  is_connection_suspended cookie st = false /\
  connection_map st !! get_connection_id cookie = Some (cookie, m).

(** The kind of the call made just before call [i] of [calls]; [prev]
    before the first one. *)
Definition kind_before (prev : Cmd) (calls : list (Z * Cmd)) (i : nat) : Cmd :=
  match i with
  | O => prev
  | S j => from_option snd prev (calls !! j)
  end.

(** The compare-and-swap calls among [calls], and the outcomes [outs] of
    [calls] at those calls. *)
Definition cas_calls (calls : list (Z * Cmd)) : list (Z * Cmd) :=
  filter (fun call => call.2 = CAS) calls.

Definition outcomes_of_cas_calls (calls : list (Z * Cmd)) (outs : list outcome)
    : list outcome :=
  (filter (fun p => p.1.2 = CAS) (zip calls outs)).*2.

(** The outcomes of [dis(gen)]: [std::uniform_int_distribution<uint32_t>
    dis(1, 100)] yields each of 1, ..., 100 with the same probability. *)
Definition dis_outcomes : list Z := map Z.of_nat (seq 1 100).

(** The draws on which [ErrRandom] with percentage [percentage_to_err]
    injects. *)
Definition injecting_draws (percentage_to_err : Z) : list Z :=
  filter (fun dis_gen =>
            (ErrRandom_should_inject_error ENGINE_EWOULDBLOCK percentage_to_err
               dis_gen GET ENGINE_SUCCESS).1.1 = true)
         dis_outcomes.

(** ** Every gated operation *)

(** The operations of the engine that ask the gate, with the argument that
    decides the command handed to it, if any: the thirteen callers of
    [should_inject_error].  [OpUnknownCommand] is [unknown_command] with
    another opcode than the control opcode. *)
Inductive engine_op : Set :=
| OpAllocate
| OpAllocateEx
| OpRemove
| OpGet
| OpGetIf
| OpGetAndTouch
| OpGetLocked
| OpUnlock
| OpGetMeta
| OpStore (operation : ENGINE_STORE_OPERATION)
| OpStoreIf (operation : ENGINE_STORE_OPERATION)
| OpGetStats
| OpUnknownCommand.

(** The call of the operation on the engine. *)
Definition call (dis_gen : Z) (op : engine_op) (cookie : Z) (st : EWB_Engine)
    : outcome * EWB_Engine :=
  match op with
  | OpAllocate => allocate dis_gen cookie st
  | OpAllocateEx => allocate_ex dis_gen cookie st
  | OpRemove => remove dis_gen cookie st
  | OpGet => get dis_gen cookie st
  | OpGetIf => get_if dis_gen cookie st
  | OpGetAndTouch => get_and_touch dis_gen cookie st
  | OpGetLocked => get_locked dis_gen cookie st
  | OpUnlock => unlock dis_gen cookie st
  | OpGetMeta => get_meta dis_gen cookie st
  | OpStore operation => store dis_gen cookie operation st
  | OpStoreIf operation => store_if dis_gen cookie operation st
  | OpGetStats => get_stats dis_gen cookie st
  | OpUnknownCommand =>
      let '(o, _, st) := unknown_command dis_gen cookie OtherOpcode st in (o, st)
  end.

(** The gated operations a connection issues one after the other on one
    cookie, each with the draw of that call. *)
Fixpoint run_ops (cookie : Z) (ops : list (Z * engine_op)) (st : EWB_Engine)
    : list outcome * EWB_Engine :=
  match ops with
  | [] => ([], st)
  | (dis_gen, op) :: ops =>
      let '(o, st) := call dis_gen op cookie st in
      let '(os, st) := run_ops cookie ops st in
      (o :: os, st)
  end.

(** The command an operation hands to the gate ([call_asks_the_gate]
    below). *)
Definition kind_of (op : engine_op) : Cmd :=
  match op with
  | OpAllocate | OpAllocateEx => ALLOCATE
  | OpRemove => REMOVE
  | OpGet | OpGetIf | OpGetAndTouch => GET
  | OpGetLocked => LOCK
  | OpUnlock => UNLOCK
  | OpGetMeta => GET_META
  | OpStore operation | OpStoreIf operation =>
      if bool_decide (operation = OPERATION_CAS) then CAS else STORE
  | OpGetStats => GET_STATS
  | OpUnknownCommand => UNKNOWN_COMMAND
  end.

(** What an operation does with the error [err] the gate injects
    ([call_asks_the_gate] below). *)
Definition answer (op : engine_op) (err : ENGINE_ERROR_CODE) : outcome :=
  match op with
  | OpGetIf | OpGetAndTouch => Return ENGINE_EWOULDBLOCK
  | OpAllocateEx => Throw (engine_error err)
  | _ => Return err
  end.

Definition answer_as (op : engine_op) (o : outcome) : outcome :=
  match o with
  | Return err => answer op err
  | _ => o
  end.

Definition kinds (ops : list (Z * engine_op)) : list (Z * Cmd) :=
  map (fun p => (p.1, kind_of p.2)) ops.

(** The member [injected_error] of a mode. *)
Definition injected_error_of (m : FaultInjectMode) : ENGINE_ERROR_CODE :=
  match m with
  | ErrOnFirst e _ | ErrOnNextN e _ | ErrRandom e _ | ErrSequence e _ _
  | ErrOnNoNotify e _ | CASMismatch e _ => e
  end.

Definition is_forward (o : outcome) : bool :=
  match o with
  | Forward => true
  | _ => false
  end.

(** How many of the outcomes are not a pass to the wrapped engine. *)
Definition not_forwarded (outs : list outcome) : nat :=
  length (List.filter (fun o => negb (is_forward o)) outs).

(** * Properties *)

(** ** Suspension *)

Lemma is_connection_suspended_true (cookie : Z) (st : EWB_Engine) :
  is_connection_suspended cookie st = true <->
  exists id : Z, suspended_map st !! id = Some cookie.
Proof.
  unfold is_connection_suspended. rewrite existsb_exists. split.
  - intros [[id c] [Hin Heq]]. exists id.
    apply list_elem_of_In, elem_of_map_to_list in Hin.
    simpl in Heq. apply Z.eqb_eq in Heq. by subst.
  - intros [id Hid]. exists (id, cookie). split.
    + by apply list_elem_of_In, elem_of_map_to_list.
    + simpl. apply Z.eqb_refl.
Qed.

Lemma is_connection_suspended_false (cookie : Z) (st : EWB_Engine) :
  is_connection_suspended cookie st = false <->
  forall id : Z, suspended_map st !! id <> Some cookie.
Proof.
  rewrite <- not_true_iff_false, is_connection_suspended_true.
  split.
  - intros Hn id Hid. apply Hn. by exists id.
  - intros Hn [id Hid]. by apply (Hn id).
Qed.

Lemma should_inject_error_suspended dis_gen cmd cookie err st :
  is_connection_suspended cookie st = true ->
  should_inject_error dis_gen cmd cookie err st = (true, ENGINE_EWOULDBLOCK, st).
Proof. intros H. unfold should_inject_error. by rewrite H. Qed.

Lemma gated_suspended dis_gen cmd cookie st :
  is_connection_suspended cookie st = true ->
  gated dis_gen cmd cookie st = (Return ENGINE_EWOULDBLOCK, st).
Proof. intros H. unfold gated. by rewrite should_inject_error_suspended. Qed.

Lemma run_gated_suspended cookie calls st :
  is_connection_suspended cookie st = true ->
  run_gated cookie calls st = (map (fun _ => Return ENGINE_EWOULDBLOCK) calls, st).
Proof.
  intros H. induction calls as [|[d cmd] calls IH]; simpl; [done|].
  by rewrite gated_suspended, IH.
Qed.

Lemma resume_registered id cookie st :
  suspended_map st !! id = Some cookie ->
  resume id st =
    (true, mkEWB_Engine (connection_map st) (delete id (suspended_map st))
             (pending_io_ops st ++ [cookie]) (dcp_stream st) (clustermap_revno st)).
Proof. intros H. unfold resume. by rewrite H. Qed.

Lemma resume_unregistered id st :
  suspended_map st !! id = None -> resume id st = (false, st).
Proof. intros H. unfold resume. by rewrite H. Qed.

(** ** The gate on a registered connection *)

Lemma gated_installed cookie m st dis_gen cmd :
  installed cookie m st ->
  exists st',
    gated dis_gen cmd cookie st =
      ((if (FaultInjectMode_should_inject_error m dis_gen cmd ENGINE_SUCCESS).1.1
        then Return (FaultInjectMode_should_inject_error m dis_gen cmd ENGINE_SUCCESS).1.2
        else Forward), st') /\
    installed cookie (FaultInjectMode_should_inject_error m dis_gen cmd ENGINE_SUCCESS).2 st'.
Proof.
  intros [Hs Hm]. unfold gated, should_inject_error. rewrite Hs, Hm, Z.eqb_refl. simpl.
  destruct (FaultInjectMode_should_inject_error m dis_gen cmd ENGINE_SUCCESS)
    as [[inject err] m']. simpl.
  destruct (inject && bool_decide (err = ENGINE_EWOULDBLOCK) && add_to_pending_io_ops m');
    destruct inject; eexists; (split; [reflexivity|]); (split; [exact Hs|]); simpl; apply lookup_insert_eq.
Qed.

Lemma run_gated_installed cookie calls : forall m st,
  installed cookie m st ->
  (run_gated cookie calls st).1 = (run_mode m calls).1 /\
  installed cookie (run_mode m calls).2 (run_gated cookie calls st).2.
Proof.
  induction calls as [|[d cmd] calls IH]; intros m st Hi; simpl; [done|].
  destruct (gated_installed _ _ _ d cmd Hi) as (st' & Hg & Hi'). rewrite Hg.
  destruct (FaultInjectMode_should_inject_error m d cmd ENGINE_SUCCESS) as [[inject err] m'].
  simpl in *. destruct (IH _ _ Hi') as [Ho Hi''].
  destruct (run_gated cookie calls st') as [os st'']. destruct (run_mode m' calls) as [os' m''].
  simpl in *. by subst.
Qed.

(** The control channel installs a mode: the next gated operation on the
    cookie sees it. *)
Lemma unknown_command_installs dis_gen cookie mode value e key m st :
  is_connection_suspended cookie st = false ->
  match mode with
  | Next_N => m = new_ErrOnNextN e value
  | Random => m = new_ErrRandom e value
  | First => m = new_ErrOnFirst e
  | Sequence => m = new_ErrSequence e value
  | No_Notify => m = new_ErrOnNoNotify e
  | CasMismatch => m = new_CASMismatch value
  | _ => False
  end ->
  exists st',
    unknown_command dis_gen cookie (EwouldblockCtl (Some mode) value e key) st =
      (Return ENGINE_SUCCESS, Some Success, st') /\
    installed cookie m st'.
Proof.
  intros Hs Hm.
  destruct mode; try done; subst m; simpl; eexists; (split; [reflexivity|]);
    (split; [exact Hs|]); simpl; apply lookup_insert_eq.
Qed.

(** ** ErrOnNextN *)

Lemma to_uint32_pred n : is_uint32 n -> 0 < n -> to_uint32 (n - 1) = n - 1.
Proof. unfold is_uint32, to_uint32. intros. apply Z.mod_small. lia. Qed.

Lemma run_mode_ErrOnNextN e calls : forall n,
  is_uint32 n ->
  (run_mode (ErrOnNextN e n) calls).1 =
    imap (fun i _ => if Z.of_nat i <? n then Return e else Forward) calls.
Proof.
  induction calls as [|[d cmd] calls IH]; intros n Hn; [done|].
  simpl. unfold ErrOnNextN_should_inject_error.
  destruct (Z.ltb_spec 0 n) as [Hpos|Hz].
  - rewrite to_uint32_pred by done.
    specialize (IH (n - 1)).
    destruct (run_mode (ErrOnNextN e (n - 1)) calls) as [os m]. simpl in *.
    f_equal; [by destruct (Z.ltb_spec (Z.of_nat 0) n); [|lia]|].
    rewrite IH by (unfold is_uint32 in *; lia).
    apply imap_ext. intros i x _. simpl.
    destruct (Z.ltb_spec (Z.of_nat i) (n - 1)), (Z.ltb_spec (Z.of_nat (S i)) n); done || lia.
  - specialize (IH n Hn).
    destruct (run_mode (ErrOnNextN e n) calls) as [os m]. simpl in *.
    f_equal; [by destruct (Z.ltb_spec (Z.of_nat 0) n); [lia|]|].
    rewrite IH.
    apply imap_ext. intros i x _. simpl.
    destruct (Z.ltb_spec (Z.of_nat i) n), (Z.ltb_spec (Z.of_nat (S i)) n); done || lia.
Qed.

(** [ErrOnNextN] on the operations that return the error code the gate
    gives them ([gated]): with count [n] installed for a cookie, the first
    [n] of them return the injected error and every later one, the
    [n+1]-th included, is forwarded to the wrapped engine ([i] counts the
    operations from 0). *)
Theorem ErrOnNextN_first_n_then_forward (st : EWB_Engine) (cookie n : Z)
    (e : ENGINE_ERROR_CODE) (calls : list (Z * Cmd)) (i : nat) :
  is_uint32 n ->
  installed cookie (new_ErrOnNextN e n) st ->
  (i < length calls)%nat ->
  (run_gated cookie calls st).1 !! i =
    Some (if Z.of_nat i <? n then Return e else Forward).
Proof.
  intros Hn Hi Hlt.
  destruct (run_gated_installed cookie calls _ _ Hi) as [-> _].
  unfold new_ErrOnNextN. rewrite run_mode_ErrOnNextN by done.
  rewrite list_lookup_imap.
  destruct (lookup_lt_is_Some_2 calls i Hlt) as [x ->]. done.
Qed.

(** ** ErrOnFirst *)

Lemma kind_before_cons prev d0 c0 calls j :
  is_Some (calls !! j) ->
  kind_before prev ((d0, c0) :: calls) (S j) = kind_before c0 calls j.
Proof.
  intros Hj. destruct j as [|k]; simpl; [done|].
  assert (Hk : is_Some (calls !! k)).
  { apply lookup_lt_is_Some. apply lookup_lt_is_Some in Hj. lia. }
  destruct Hk as [x ->]. done.
Qed.

Lemma run_mode_ErrOnFirst e calls : forall prev i d cmd,
  calls !! i = Some (d, cmd) ->
  (run_mode (ErrOnFirst e prev) calls).1 !! i =
    Some (if bool_decide (kind_before prev calls i = cmd) then Forward else Return e).
Proof.
  induction calls as [|[d0 c0] calls IH]; intros prev i d cmd Hi; [done|].
  simpl run_mode. unfold ErrOnFirst_should_inject_error.
  specialize (IH c0).
  destruct (run_mode (ErrOnFirst e c0) calls) as [os m]. simpl in IH. simpl fst.
  destruct i as [|j].
  - simpl in Hi. injection Hi as -> ->. simpl.
    by destruct (bool_decide (prev = cmd)).
  - simpl in Hi. rewrite kind_before_cons by eauto.
    change ((?x :: os) !! S j) with (os !! j). by apply (IH j d).
Qed.

(** [ErrOnFirst] on the operations that return the error code the gate
    gives them ([gated]): such an operation returns the injected error iff
    its kind differs from the kind of the gated operation just before it
    ([NONE] before the first). *)
Theorem ErrOnFirst_injects_when_kind_changes (st : EWB_Engine) (cookie : Z)
    (e : ENGINE_ERROR_CODE) (calls : list (Z * Cmd)) (i : nat) (d : Z) (cmd : Cmd) :
  installed cookie (new_ErrOnFirst e) st ->
  calls !! i = Some (d, cmd) ->
  (run_gated cookie calls st).1 !! i =
    Some (if bool_decide (kind_before NONE calls i = cmd) then Forward else Return e) /\
  (cmd <> NONE -> cmd ∉ (take i calls).*2 ->
   (run_gated cookie calls st).1 !! i = Some (Return e)).
Proof.
  intros Hi Hc.
  destruct (run_gated_installed cookie calls _ _ Hi) as [-> _].
  unfold new_ErrOnFirst. rewrite (run_mode_ErrOnFirst e calls NONE i d cmd Hc).
  split; [done|]. intros Hnone Hfresh.
  rewrite bool_decide_eq_false_2; [done|].
  destruct i as [|j]; simpl; [congruence|].
  assert (Hj : is_Some (calls !! j)).
  { apply lookup_lt_is_Some. apply lookup_lt_Some in Hc. lia. }
  destruct Hj as [[d' c'] Hj]. rewrite Hj. simpl. intros ->.
  apply Hfresh. apply list_elem_of_fmap. exists (d', cmd). split; [done|].
  apply list_elem_of_lookup. exists j. rewrite lookup_take_lt by lia. done.
Qed.

(** ** ErrSequence *)

Lemma to_uint32_to_int32 x : to_uint32 (to_int32 x) = to_uint32 x.
Proof.
  unfold to_uint32, to_int32.
  rewrite Zminus_mod, Zmod_mod, <- Zminus_mod. f_equal. lia.
Qed.

Lemma land_pow2 a k :
  0 <= k -> Z.land a (2 ^ k) = if Z.testbit a k then 2 ^ k else 0.
Proof.
  intros Hk. apply Z.bits_inj'. intros n Hn.
  rewrite Z.land_spec, Z.pow2_bits_eqb by done.
  destruct (Z.eqb_spec k n) as [->|Hne].
  - destruct (Z.testbit a n) eqn:Ha; simpl.
    + by rewrite Z.pow2_bits_true.
    + by rewrite Z.bits_0.
  - rewrite andb_false_r.
    destruct (Z.testbit a k).
    + by rewrite Z.pow2_bits_false.
    + by rewrite Z.bits_0.
Qed.

Lemma sequence_bit sequence pos :
  0 <= pos < 32 ->
  negb (Z.land sequence (to_uint32 (to_int32 (Z.shiftl 1 pos))) =? 0) =
    Z.testbit sequence pos.
Proof.
  intros Hp. rewrite to_uint32_to_int32, Z.shiftl_1_l. unfold to_uint32.
  assert (Hlt : 0 < 2 ^ pos < 2 ^ 32).
  { split; [apply Z.pow_pos_nonneg; lia | apply Z.pow_lt_mono_r; lia]. }
  rewrite Z.mod_small by lia. rewrite land_pow2 by lia.
  destruct (Z.testbit sequence pos); simpl.
  - destruct (Z.eqb_spec (2 ^ pos) 0); [lia|done].
  - done.
Qed.

Lemma run_mode_ErrSequence e sequence calls : forall pos,
  0 <= pos <= 32 ->
  (run_mode (ErrSequence e sequence pos) calls).1 =
    imap (fun i _ =>
            if (pos + Z.of_nat i <? 32) && Z.testbit sequence (pos + Z.of_nat i)
            then Return e else Forward) calls.
Proof.
  induction calls as [|[d cmd] calls IH]; intros pos Hp; [done|].
  simpl run_mode. unfold ErrSequence_should_inject_error.
  destruct (Z.ltb_spec pos 32) as [Hlt|Hge].
  - rewrite sequence_bit by lia.
    assert (Hw : to_uint32 (pos + 1) = pos + 1)
      by (unfold to_uint32; apply Z.mod_small; lia).
    rewrite Hw. specialize (IH (pos + 1)).
    destruct (run_mode (ErrSequence e sequence (pos + 1)) calls) as [os m].
    simpl in IH. simpl fst. rewrite imap_cons. f_equal.
    + replace (pos + Z.of_nat 0) with pos by lia.
      destruct (Z.ltb_spec pos 32); [|lia]. simpl.
      by destruct (Z.testbit sequence pos).
    + rewrite IH by lia. apply imap_ext. intros i x _. simpl.
      by replace (pos + 1 + Z.of_nat i) with (pos + Z.of_nat (S i)) by lia.
  - specialize (IH pos Hp).
    destruct (run_mode (ErrSequence e sequence pos) calls) as [os m].
    simpl in IH. simpl fst. rewrite imap_cons. f_equal.
    + by destruct (Z.ltb_spec (pos + Z.of_nat 0) 32); [lia|].
    + rewrite IH. apply imap_ext. intros i x _. simpl.
      destruct (Z.ltb_spec (pos + Z.of_nat i) 32); [lia|].
      by destruct (Z.ltb_spec (pos + Z.of_nat (S i)) 32); [lia|].
Qed.

(** C4: with [ErrSequence] of mask [sequence] installed for a cookie, call
    number [i + 1] of the gated operations that follow on the cookie returns
    the injected error iff [i < 32] and bit [i] of the mask is set, the
    least significant bit deciding the first call; every call after the
    32nd is forwarded. *)
Theorem ErrSequence_follows_mask (st : EWB_Engine) (cookie sequence : Z)
    (e : ENGINE_ERROR_CODE) (calls : list (Z * Cmd)) (i : nat) :
  installed cookie (new_ErrSequence e sequence) st ->
  (i < length calls)%nat ->
  (run_gated cookie calls st).1 !! i =
    Some (if (Z.of_nat i <? 32) && Z.testbit sequence (Z.of_nat i)
          then Return e else Forward).
Proof.
  intros Hi Hlt.
  destruct (run_gated_installed cookie calls _ _ Hi) as [-> _].
  unfold new_ErrSequence. rewrite run_mode_ErrSequence by lia.
  rewrite list_lookup_imap.
  destruct (lookup_lt_is_Some_2 calls i Hlt) as [x ->]. done.
Qed.

(** ** CASMismatch *)

Lemma set_connection_map_id id first second st :
  connection_map st !! id = Some (first, second) ->
  set_connection_map (<[id := (first, second)]> (connection_map st)) st = st.
Proof. intros H. rewrite insert_id by done. by destruct st. Qed.

Lemma gated_CASMismatch_not_cas cookie e count st dis_gen cmd :
  installed cookie (CASMismatch e count) st ->
  cmd <> CAS ->
  gated dis_gen cmd cookie st = (Forward, st).
Proof.
  intros [Hs Hm] Hc. unfold gated, should_inject_error.
  rewrite Hs, Hm, Z.eqb_refl. simpl. unfold CASMismatch_should_inject_error.
  rewrite bool_decide_eq_false_2 by done. simpl.
  by rewrite set_connection_map_id.
Qed.

Lemma run_mode_CASMismatch_not_cas e calls : forall count i d cmd,
  calls !! i = Some (d, cmd) ->
  cmd <> CAS ->
  (run_mode (CASMismatch e count) calls).1 !! i = Some Forward.
Proof.
  induction calls as [|[d0 c0] calls IH]; intros count i d cmd Hi Hc; [done|].
  simpl run_mode. unfold CASMismatch_should_inject_error.
  destruct i as [|j].
  - simpl in Hi. injection Hi as -> ->.
    rewrite bool_decide_eq_false_2 by done. simpl.
    by destruct (run_mode (CASMismatch e count) calls).
  - simpl in Hi.
    destruct (bool_decide (c0 = CAS) && (0 <? count)).
    + specialize (IH (to_uint32 (count - 1)) j d cmd Hi Hc).
      by destruct (run_mode (CASMismatch e (to_uint32 (count - 1))) calls).
    + specialize (IH count j d cmd Hi Hc).
      by destruct (run_mode (CASMismatch e count) calls).
Qed.

Lemma run_mode_CASMismatch_cas e calls : forall count,
  outcomes_of_cas_calls calls (run_mode (CASMismatch e count) calls).1 =
    (run_mode (ErrOnNextN e count) (cas_calls calls)).1.
Proof.
  unfold outcomes_of_cas_calls, cas_calls.
  induction calls as [|[d0 c0] calls IH]; intros count; [done|].
  simpl run_mode. unfold CASMismatch_should_inject_error.
  destruct (decide (c0 = CAS)) as [->|Hne].
  - rewrite (filter_cons_True _ (d0, CAS)) by done.
    simpl run_mode. unfold ErrOnNextN_should_inject_error.
    rewrite bool_decide_eq_true_2 by done. simpl.
    destruct (0 <? count).
    + specialize (IH (to_uint32 (count - 1))).
      destruct (run_mode (CASMismatch e (to_uint32 (count - 1))) calls) as [os m].
      destruct (run_mode (ErrOnNextN e (to_uint32 (count - 1))) _) as [os' m'].
      simpl in *. by f_equal.
    + specialize (IH count).
      destruct (run_mode (CASMismatch e count) calls) as [os m].
      destruct (run_mode (ErrOnNextN e count) _) as [os' m'].
      simpl in *. by f_equal.
  - rewrite (filter_cons_False _ (d0, c0)) by done.
    rewrite bool_decide_eq_false_2 by done. simpl.
    specialize (IH count).
    destruct (run_mode (CASMismatch e count) calls) as [os m].
    simpl in *. by rewrite (filter_cons_False _ (d0, c0, Forward)) by done.
Qed.

(** C5: with [CASMismatch] of count [n] installed for a cookie, a gated
    operation of another kind than compare-and-swap is forwarded and leaves
    the engine, the mode included, as it was, at whatever count the mode
    stands; [store] asks the gate with [CAS] exactly for [OPERATION_CAS];
    and the outcomes at the compare-and-swap calls are those of
    [ErrOnNextN] with key-exists and count [n] run on these calls alone: the
    first [n] return key-exists, the later ones are forwarded. *)
Theorem CASMismatch_is_ErrOnNextN_on_cas (st st_n : EWB_Engine) (cookie n : Z)
    (calls : list (Z * Cmd)) :
  is_uint32 n ->
  installed cookie (new_CASMismatch n) st ->
  installed cookie (new_ErrOnNextN ENGINE_KEY_EEXISTS n) st_n ->
  (forall count st' dis_gen cmd,
     installed cookie (CASMismatch ENGINE_KEY_EEXISTS count) st' ->
     cmd <> CAS ->
     gated dis_gen cmd cookie st' = (Forward, st')) /\
  (forall count st' dis_gen code,
     installed cookie (CASMismatch ENGINE_KEY_EEXISTS count) st' ->
     store dis_gen cookie (OPERATION_OTHER code) st' = (Forward, st') /\
     store dis_gen cookie OPERATION_CAS st' = gated dis_gen CAS cookie st') /\
  (forall i d cmd,
     calls !! i = Some (d, cmd) -> cmd <> CAS ->
     (run_gated cookie calls st).1 !! i = Some Forward) /\
  outcomes_of_cas_calls calls (run_gated cookie calls st).1 =
    (run_gated cookie (cas_calls calls) st_n).1 /\
  outcomes_of_cas_calls calls (run_gated cookie calls st).1 =
    imap (fun k _ => if Z.of_nat k <? n then Return ENGINE_KEY_EEXISTS else Forward)
         (cas_calls calls).
Proof.
  intros Hn Hi Hin.
  destruct (run_gated_installed cookie calls _ _ Hi) as [-> _].
  destruct (run_gated_installed cookie (cas_calls calls) _ _ Hin) as [-> _].
  unfold new_CASMismatch, new_ErrOnNextN.
  split; [|split; [|split; [|split]]].
  - intros. by eapply gated_CASMismatch_not_cas.
  - intros count st' dis_gen code Hi'. split; [|done].
    unfold store. rewrite bool_decide_eq_false_2 by done.
    by eapply gated_CASMismatch_not_cas.
  - intros. by eapply run_mode_CASMismatch_not_cas.
  - apply run_mode_CASMismatch_cas.
  - rewrite run_mode_CASMismatch_cas. by apply run_mode_ErrOnNextN.
Qed.

(** ** ErrRandom *)

Lemma injecting_draws_below percentage_to_err dis_gen :
  dis_gen ∈ injecting_draws percentage_to_err <->
  1 <= dis_gen <= 100 /\ dis_gen < percentage_to_err.
Proof.
  unfold injecting_draws, dis_outcomes, ErrRandom_should_inject_error.
  rewrite list_elem_of_filter, list_elem_of_fmap. split.
  - intros [Hlt [k [-> Hk]]]. apply elem_of_seq in Hk.
    destruct (Z.ltb_spec (Z.of_nat k) percentage_to_err); [lia|done].
  - intros [Hr Hlt]. split.
    + by destruct (Z.ltb_spec dis_gen percentage_to_err); [|lia].
    + exists (Z.to_nat dis_gen). split; [lia|]. apply elem_of_seq. lia.
Qed.

(** C6, the code at [percentage_to_err = 100]: the draw 100 does not
    inject, on the mode and through the gate, and 99 of the 100 draws
    inject. *)
Theorem ErrRandom_100_passes_on_draw_100 :
  ErrRandom_should_inject_error ENGINE_EWOULDBLOCK 100 100 GET ENGINE_SUCCESS =
    (false, ENGINE_SUCCESS, ErrRandom ENGINE_EWOULDBLOCK 100) /\
  length (injecting_draws 100) = 99%nat /\
  (forall st cookie,
     installed cookie (new_ErrRandom ENGINE_EWOULDBLOCK 100) st ->
     gated 100 GET cookie st = (Forward, st)).
Proof.
  split; [reflexivity|]. split; [reflexivity|].
  intros st cookie [Hs Hm]. unfold gated, should_inject_error.
  rewrite Hs, Hm, Z.eqb_refl. simpl.
  by rewrite set_connection_map_id.
Qed.

Lemma ErrRandom_length_filter e p cmd err : forall k a,
  length (filter (fun dis_gen =>
                    (ErrRandom_should_inject_error e p dis_gen cmd err).1.1 = true)
                 (map Z.of_nat (seq a k))) =
    Z.to_nat (Z.min (Z.of_nat k) (Z.max 0 (p - Z.of_nat a))).
Proof.
  induction k as [|k IH]; intros a; [simpl; lia|].
  simpl. rewrite filter_cons.
  destruct (decide _) as [Hd|Hd]; simpl; rewrite IH;
    unfold ErrRandom_should_inject_error in Hd;
    destruct (Z.ltb_spec (Z.of_nat a) p); simpl in Hd; try done; lia.
Qed.

(** Of the 100 outcomes of the draw, [percentage_to_err - 1] inject. *)
Lemma ErrRandom_injecting_draws_count p :
  1 <= p <= 100 -> length (injecting_draws p) = Z.to_nat (p - 1).
Proof.
  intros Hp. unfold injecting_draws, dis_outcomes.
  rewrite ErrRandom_length_filter. lia.
Qed.

(** ** The internal DCP stream *)

(** Settle a goal about [digit_char d], [0 <= d < 10], digit by digit. *)
Ltac by_digit_cases d :=
  let Hc := fresh "Hc" in
  assert (d = 0 \/ d = 1 \/ d = 2 \/ d = 3 \/ d = 4 \/
          d = 5 \/ d = 6 \/ d = 7 \/ d = 8 \/ d = 9) as Hc by lia;
  repeat (destruct Hc as [->|Hc]; [reflexivity|]); subst; reflexivity.

Lemma digit_value_digit_char d :
  0 <= d < 10 -> digit_value (digit_char d) = Some d.
Proof.
  intros Hd.
  by_digit_cases d.
Qed.

Lemma isspace_digit_char d : 0 <= d < 10 -> isspace (digit_char d) = false.
Proof.
  intros Hd.
  by_digit_cases d.
Qed.

Lemma decimal_acc_all_digits fuel : forall n acc,
  0 <= n -> all_digits acc -> all_digits (decimal_acc fuel n acc).
Proof.
  induction fuel as [|fuel IH]; intros n acc Hn Hacc; simpl; [done|].
  assert (Hd : all_digits (String (digit_char (n mod 10)) acc)).
  { simpl. split; [|done]. exists (n mod 10). split; [|done].
    apply Z.mod_pos_bound. lia. }
  destruct (n <? 10); [done|]. apply IH; [|done].
  apply Z.div_pos; lia.
Qed.

Lemma read_digits_decimal_acc fuel : forall n,
  0 <= n < 10 ^ Z.of_nat fuel ->
  exists k, 0 <= k /\ forall a acc,
    read_digits a (decimal_acc fuel n acc) = read_digits (a * 10 ^ k + n) acc.
Proof.
  induction fuel as [|fuel IH]; intros n Hn.
  - exists 0. split; [done|]. intros a acc. simpl in *. f_equal. lia.
  - simpl decimal_acc. destruct (Z.ltb_spec n 10) as [Hlt|Hge].
    + exists 1. split; [done|]. intros a acc. simpl read_digits.
      rewrite digit_value_digit_char by (apply Z.mod_pos_bound; lia).
      rewrite Z.mod_small by lia. f_equal.
    + destruct (IH (n / 10)) as (k & Hk0 & Hk).
      { split; [apply Z.div_pos; lia|].
        apply Z.div_lt_upper_bound; [lia|].
        rewrite Nat2Z.inj_succ, Z.pow_succ_r in Hn by lia. lia. }
      exists (k + 1). split; [lia|]. intros a acc. rewrite Hk. simpl read_digits.
      rewrite digit_value_digit_char by (apply Z.mod_pos_bound; lia).
      f_equal. rewrite Z.pow_add_r, Z.pow_1_r by lia.
      pose proof (Z.div_mod n 10). lia.
Qed.

Lemma decimal_acc_nonempty fuel : forall n acc,
  acc <> EmptyString \/ fuel <> O -> decimal_acc fuel n acc <> EmptyString.
Proof.
  induction fuel as [|fuel IH]; intros n acc H; simpl.
  - by destruct H.
  - destruct (n <? 10); [done|]. apply IH. by left.
Qed.

Lemma stoull_digits a s :
  (exists d, 0 <= d < 10 /\ a = digit_char d) ->
  stoull (String a s) =
    if read_digits 0 (String a s) <? 2 ^ 64
    then Some (read_digits 0 (String a s)) else None.
Proof.
  intros (d & Hd & ->).
  by_digit_cases d.
Qed.

(** [std::stoull] reads the decimal numeral of a [uint64_t] back. *)
Lemma stoull_decimal n : is_uint64 n -> stoull (decimal n) = Some n.
Proof.
  intros Hn. unfold is_uint64 in Hn.
  pose proof (decimal_acc_all_digits 20 n EmptyString) as Hall.
  pose proof (decimal_acc_nonempty 20 n EmptyString) as Hne.
  destruct (read_digits_decimal_acc 20 n) as (k & _ & Hk).
  { split; [lia|]. eapply Z.lt_trans; [apply Hn|]. reflexivity. }
  specialize (Hk 0 EmptyString). fold (decimal n) in Hall, Hne, Hk.
  destruct (decimal n) as [|a s].
  - exfalso. apply Hne; [by right|done].
  - destruct Hall as [Ha _]; [lia|done|].
    rewrite stoull_digits by done. rewrite Hk. cbn [read_digits].
    replace (0 * 10 ^ k + n) with n by lia.
    by destruct (Z.ltb_spec n (2 ^ 64)); [|lia].
Qed.

Lemma rfind_colon_all_digits s : all_digits s -> rfind ":"%char s = None.
Proof.
  induction s as [|a s IH]; intros Hs; [done|].
  destruct Hs as [(d & Hd & ->) Hs]. simpl. rewrite IH by done.
  by_digit_cases d.
Qed.

(** Opening [ewb_internal:<count>] registers a stream that is not started
    and has [count] items to send. *)
Lemma open_stream_name cookie count st :
  is_uint64 count ->
  open cookie (stream_name count) st =
    (Return ENGINE_SUCCESS,
     set_dcp_stream (<[cookie := (false, count)]> (dcp_stream st)) st).
Proof.
  intros Hc. unfold open, stream_name.
  change (String.prefix "ewb_internal" ("ewb_internal:" ++ decimal count)) with true.
  assert (Hr : rfind ":"%char ("ewb_internal:" ++ decimal count) = Some 12%nat).
  { simpl. rewrite rfind_colon_all_digits; [done|].
    apply decimal_acc_all_digits; [unfold is_uint64 in Hc; lia|done]. }
  rewrite Hr.
  change (substr (12 + 1) ("ewb_internal:" ++ decimal count)) with (decimal count).
  by rewrite stoull_decimal.
Qed.

Lemma to_uint64_pred n : is_uint64 n -> 0 < n -> to_uint64 (n - 1) = n - 1.
Proof. unfold is_uint64, to_uint64. intros. apply Z.mod_small. lia. Qed.

Lemma run_step_not_started cookie count k : forall st,
  dcp_stream st !! cookie = Some (false, count) ->
  run_step cookie k st = (replicate k (Return ENGINE_EWOULDBLOCK), st).
Proof.
  induction k as [|k IH]; intros st Hs; simpl; [done|].
  unfold step. rewrite Hs. simpl. by rewrite IH.
Qed.

Lemma run_step_started cookie k : forall count st,
  is_uint64 count ->
  dcp_stream st !! cookie = Some (true, count) ->
  (run_step cookie k st).1 =
    replicate (k `min` Z.to_nat count) (Mutation canned_mutation) ++
    replicate (k - Z.to_nat count) (Return ENGINE_EWOULDBLOCK) /\
  dcp_stream (run_step cookie k st).2 !! cookie =
    Some (true, count - Z.of_nat (k `min` Z.to_nat count)).
Proof.
  induction k as [|k IH]; intros count st Hc Hs.
  - simpl. rewrite Hs. split; [done|]. do 2 f_equal. lia.
  - simpl run_step. unfold step. rewrite Hs. simpl.
    destruct (Z.ltb_spec 0 count) as [Hpos|Hz].
    + rewrite to_uint64_pred by done.
      destruct (IH (count - 1)
                  (set_dcp_stream (<[cookie := (true, count - 1)]> (dcp_stream st)) st))
        as [Ho Hd].
      { unfold is_uint64 in *. lia. }
      { simpl. apply lookup_insert_eq. }
      destruct (run_step cookie k _) as [os st']. simpl in *.
      replace (Z.to_nat count) with (S (Z.to_nat (count - 1))) by lia.
      simpl. rewrite Ho. split; [done|]. rewrite Hd. do 2 f_equal. lia.
    + assert (count = 0) as -> by (unfold is_uint64 in Hc; lia).
      destruct (IH 0 st Hc Hs) as [Ho Hd].
      destruct (run_step cookie k st) as [os st']. simpl in *.
      rewrite Ho. split.
      * by rewrite Nat.min_0_r, Nat.sub_0_r.
      * rewrite Hd. do 2 f_equal. lia.
Qed.

(** C9: a stream opened under the name [ewb_internal:<count>] is not
    started, so [step] returns would-block.  A stream request with start
    sequence number 1 answers rollback with rollback sequence number 0 and
    leaves the stream as it is, not started.  A stream request with another
    start sequence number answers success and starts the stream; of the
    calls of [step] that follow the first [count] send the canned mutation,
    each taking one off the count, and every later one returns
    would-block. *)
Theorem internal_stream_request_and_steps (st0 : EWB_Engine)
    (cookie count rollback_seqno : Z) :
  is_uint64 count ->
  let st := (open cookie (stream_name count) st0).2 in
  (open cookie (stream_name count) st0).1 = Return ENGINE_SUCCESS /\
  dcp_stream st !! cookie = Some (false, count) /\
  (forall k, run_step cookie k st = (replicate k (Return ENGINE_EWOULDBLOCK), st)) /\
  stream_req cookie 1 rollback_seqno st = (Return ENGINE_ROLLBACK, 0, st) /\
  (forall start_seqno, start_seqno <> 1 ->
     exists st1,
       stream_req cookie start_seqno rollback_seqno st =
         (Return ENGINE_SUCCESS, rollback_seqno, st1) /\
       dcp_stream st1 !! cookie = Some (true, count) /\
       forall k,
         (run_step cookie k st1).1 =
           replicate (k `min` Z.to_nat count) (Mutation canned_mutation) ++
           replicate (k - Z.to_nat count) (Return ENGINE_EWOULDBLOCK) /\
         dcp_stream (run_step cookie k st1).2 !! cookie =
           Some (true, count - Z.of_nat (k `min` Z.to_nat count))).
Proof.
  intros Hc st. subst st. rewrite open_stream_name by done. simpl.
  set (st := set_dcp_stream (<[cookie := (false, count)]> (dcp_stream st0)) st0).
  assert (Hs : dcp_stream st !! cookie = Some (false, count))
    by (simpl; apply lookup_insert_eq).
  split; [done|]. split; [done|]. split.
  { intros k. by eapply run_step_not_started. }
  split.
  { unfold stream_req. by rewrite Hs. }
  intros start_seqno Hne. eexists. split.
  { unfold stream_req. rewrite Hs.
    by destruct (Z.eqb_spec start_seqno 1). }
  split; [simpl; apply lookup_insert_eq|].
  intros k. apply run_step_started; [done|]. simpl. apply lookup_insert_eq.
Qed.

(** C1: a cookie is suspended iff some token maps to it; while it is, every
    gated operation on it returns would-block ([allocate_ex], which has no
    error code to return, throws it) and leaves the engine, hence the queue
    of pending notifications, as it was; resuming the token afterwards
    removes the mapping and appends exactly one notification for that
    cookie. *)
Theorem suspended_cookie_blocks_until_resume (st : EWB_Engine) (cookie : Z) :
  (is_connection_suspended cookie st = true <->
   exists id : Z, suspended_map st !! id = Some cookie) /\
  (forall id : Z, suspended_map st !! id = Some cookie ->
     (forall dis_gen cmd err,
        should_inject_error dis_gen cmd cookie err st = (true, ENGINE_EWOULDBLOCK, st)) /\
     (forall dis_gen cmd,
        gated dis_gen cmd cookie st = (Return ENGINE_EWOULDBLOCK, st)) /\
     (forall dis_gen operation,
        store dis_gen cookie operation st = (Return ENGINE_EWOULDBLOCK, st) /\
        store_if dis_gen cookie operation st = (Return ENGINE_EWOULDBLOCK, st) /\
        get_if dis_gen cookie st = (Return ENGINE_EWOULDBLOCK, st) /\
        get_and_touch dis_gen cookie st = (Return ENGINE_EWOULDBLOCK, st) /\
        allocate_ex dis_gen cookie st = (Throw (engine_error ENGINE_EWOULDBLOCK), st)) /\
     (forall calls,
        let st1 := (run_gated cookie calls st).2 in
        pending_io_ops st1 = pending_io_ops st /\
        exists st2,
          resume id st1 = (true, st2) /\
          suspended_map st2 = delete id (suspended_map st) /\
          suspended_map st2 !! id = None /\
          pending_io_ops st2 = pending_io_ops st ++ [cookie])).
Proof.
  split; [apply is_connection_suspended_true|].
  intros id Hid.
  assert (Hs : is_connection_suspended cookie st = true)
    by (apply is_connection_suspended_true; eauto).
  split; [|split; [|split]].
  - intros. by apply should_inject_error_suspended.
  - intros. by apply gated_suspended.
  - intros. unfold store, store_if, get_if, get_and_touch, allocate_ex.
    by rewrite !gated_suspended, !should_inject_error_suspended.
  - intros calls. rewrite run_gated_suspended by done. simpl.
    split; [done|]. eexists. split; [by apply resume_registered|].
    simpl. split; [done|]. split; [apply lookup_delete_eq|done].
Qed.

(** C7: the resume control operation on token [id].  When a cookie is
    registered under the token the entry is removed, one notification for
    that cookie is queued and the reply is success; when none is, the
    operation returns invalid-argument ([ENGINE_EINVAL]), sends no reply and
    leaves the engine as it was. *)
Theorem handleResume_success_or_einval (dis_gen cookie id : Z)
    (e : ENGINE_ERROR_CODE) (key : string) (st : EWB_Engine) :
  unknown_command dis_gen cookie (EwouldblockCtl (Some Resume) id e key) st =
    handleResume cookie id st /\
  match suspended_map st !! id with
  | Some c =>
      handleResume cookie id st =
        (Return ENGINE_SUCCESS, Some Success,
         mkEWB_Engine (connection_map st) (delete id (suspended_map st))
           (pending_io_ops st ++ [c]) (dcp_stream st) (clustermap_revno st))
  | None =>
      handleResume cookie id st = (Return ENGINE_EINVAL, None, st)
  end.
Proof.
  split; [done|]. unfold handleResume.
  destruct (suspended_map st !! id) as [c|] eqn:Hid.
  - by rewrite (resume_registered _ _ _ Hid).
  - by rewrite (resume_unregistered _ _ Hid).
Qed.

(** C8: a gated operation on a cookie that is not suspended, whose
    connection id is registered under another cookie, erases the entry and
    passes through; the id has no entry afterwards. *)
Theorem stale_entry_is_evicted (st : EWB_Engine) (cookie first : Z)
    (second : FaultInjectMode) (dis_gen : Z) (cmd : Cmd) (err : ENGINE_ERROR_CODE) :
  is_connection_suspended cookie st = false ->
  connection_map st !! get_connection_id cookie = Some (first, second) ->
  first <> cookie ->
  let st1 :=
    set_connection_map (delete (get_connection_id cookie) (connection_map st)) st in
  should_inject_error dis_gen cmd cookie err st = (false, err, st1) /\
  gated dis_gen cmd cookie st = (Forward, st1) /\
  connection_map st1 !! get_connection_id cookie = None /\
  pending_io_ops st1 = pending_io_ops st.
Proof.
  intros Hs Hm Hne st1.
  assert (Hg : forall err', should_inject_error dis_gen cmd cookie err' st = (false, err', st1)).
  { intros err'. unfold should_inject_error. rewrite Hs, Hm.
    destruct (first =? cookie) eqn:Heq; [apply Z.eqb_eq in Heq; done|done]. }
  split; [apply Hg|]. split.
  - unfold gated. by rewrite Hg.
  - split; [apply lookup_delete_eq|done].
Qed.

(** C10: a gated operation on a suspended cookie returns before the
    registry is read: the engine is left as it was, so every entry of the
    connection map, with its cookie and the state of its mode, is as before
    and none is erased; after any calls made while suspended, a resume and
    the calls that follow give what they give without those calls. *)
Theorem suspended_gate_leaves_registry (st : EWB_Engine) (cookie : Z) :
  is_connection_suspended cookie st = true ->
  (forall dis_gen cmd err,
     let st1 := (should_inject_error dis_gen cmd cookie err st).2 in
     st1 = st /\
     connection_map st1 = connection_map st /\
     forall id, connection_map st1 !! id = connection_map st !! id) /\
  (forall calls id cookie2 later,
     let st1 := (run_gated cookie calls st).2 in
     resume id st1 = resume id st /\
     run_gated cookie2 later (resume id st1).2 = run_gated cookie2 later (resume id st).2).
Proof.
  intros Hs. split.
  - intros. subst st1. by rewrite should_inject_error_suspended.
  - intros. subst st1. by rewrite run_gated_suspended.
Qed.

(** * Further properties of the engine *)

(** ** Suspend and resume *)

(** X1: the suspend control operation registers the cookie under a token
    that is free, replies success and makes the cookie suspended, without
    changing whether any other cookie is; under a token that is taken it
    returns key-exists, sends no reply and changes nothing, so the cookie
    registered first keeps the token. *)
Theorem handleSuspend_registers_a_free_token (cookie id : Z) (st : EWB_Engine) :
  match suspended_map st !! id with
  | None =>
      handleSuspend cookie id st =
        (Return ENGINE_SUCCESS, Some Success,
         set_suspended_map (<[id := cookie]> (suspended_map st)) st) /\
      is_connection_suspended cookie (handleSuspend cookie id st).2 = true /\
      forall c, c <> cookie ->
        is_connection_suspended c (handleSuspend cookie id st).2 =
          is_connection_suspended c st
  | Some _ =>
      handleSuspend cookie id st = (Return ENGINE_KEY_EEXISTS, None, st)
  end.
Proof.
  unfold handleSuspend, suspend.
  destruct (suspended_map st !! id) as [c0|] eqn:Hid; [done|].
  split; [done|]. simpl. split.
  - apply is_connection_suspended_true. exists id. simpl. apply lookup_insert_eq.
  - intros c Hc. apply eq_true_iff_eq.
    rewrite !is_connection_suspended_true. simpl. split.
    + intros [id' H]. apply lookup_insert_Some in H as [[_ ?]|[_ H]]; [congruence|eauto].
    + intros [id' H]. exists id'. rewrite lookup_insert_ne; [done|congruence].
Qed.

(** X2: suspending a cookie under a free token and resuming the token
    brings the table of suspensions back to what it was and queues one
    notification for the cookie; nothing else changes. *)
Theorem suspend_then_resume_round_trip (cookie id : Z) (st : EWB_Engine) :
  suspended_map st !! id = None ->
  (suspend cookie id st).1 = true /\
  resume id (suspend cookie id st).2 =
    (true, set_pending_io_ops (pending_io_ops st ++ [cookie]) st).
Proof.
  intros Hid. unfold suspend. rewrite Hid. split; [done|].
  unfold resume. simpl. rewrite lookup_insert_eq. simpl.
  unfold schedule_notification, set_pending_io_ops, set_suspended_map. simpl.
  by rewrite delete_insert_id.
Qed.

(** X3: after a resume of token [id], a cookie is suspended iff a token
    other than [id] maps to it: a cookie registered under several tokens
    stays suspended until the last of them is resumed, and resuming a token
    suspends or frees no cookie but the one registered under it. *)
Theorem resume_leaves_other_tokens (id cookie : Z) (st : EWB_Engine) :
  is_connection_suspended cookie (resume id st).2 = true <->
  exists id', id' <> id /\ suspended_map st !! id' = Some cookie.
Proof.
  rewrite is_connection_suspended_true. unfold resume.
  destruct (suspended_map st !! id) as [c0|] eqn:Hid; simpl.
  - split.
    + intros [id' H]. apply lookup_delete_Some in H as [? ?]. eauto.
    + intros (id' & Hne & H). exists id'. apply lookup_delete_Some. eauto.
  - split.
    + intros [id' H]. exists id'. split; [congruence|done].
    + intros (id' & _ & H). eauto.
Qed.

(** X4: a token is resumed at most once: resuming it again fails and
    leaves the engine, the queue of notifications included, as the first
    resume left it. *)
Theorem resume_twice_is_resume_once (id : Z) (st : EWB_Engine) :
  resume id (resume id st).2 = (false, (resume id st).2).
Proof.
  unfold resume at 2 3. destruct (suspended_map st !! id) as [c0|] eqn:Hid; simpl.
  - unfold resume. simpl. by rewrite lookup_delete_eq.
  - unfold resume. by rewrite Hid.
Qed.

(** ** The gate *)

Lemma mode_keeps_add_to_pending_io_ops m dis_gen cmd err :
  add_to_pending_io_ops (FaultInjectMode_should_inject_error m dis_gen cmd err).2 =
    add_to_pending_io_ops m.
Proof.
  destruct m; simpl;
    unfold ErrOnFirst_should_inject_error, ErrOnNextN_should_inject_error,
      ErrRandom_should_inject_error, ErrSequence_should_inject_error,
      ErrOnNoNotify_should_inject_error, CASMismatch_should_inject_error;
    repeat match goal with |- context [if ?b then _ else _] => destruct b end;
    reflexivity.
Qed.

Lemma gated_installed_pending cookie m st dis_gen cmd :
  installed cookie m st ->
  exists o st',
    gated dis_gen cmd cookie st = (o, st') /\
    o = (if (FaultInjectMode_should_inject_error m dis_gen cmd ENGINE_SUCCESS).1.1
         then Return (FaultInjectMode_should_inject_error m dis_gen cmd ENGINE_SUCCESS).1.2
         else Forward) /\
    installed cookie (FaultInjectMode_should_inject_error m dis_gen cmd ENGINE_SUCCESS).2 st' /\
    pending_io_ops st' =
      pending_io_ops st ++
      (if is_would_block o && add_to_pending_io_ops m then [cookie] else []).
Proof.
  intros [Hs Hm]. unfold gated, should_inject_error. rewrite Hs, Hm, Z.eqb_refl. simpl.
  pose proof (mode_keeps_add_to_pending_io_ops m dis_gen cmd ENGINE_SUCCESS) as Hadd.
  destruct (FaultInjectMode_should_inject_error m dis_gen cmd ENGINE_SUCCESS)
    as [[inject err] m']. simpl in *. rewrite Hadd.
  destruct inject, err, (add_to_pending_io_ops m); simpl;
    do 2 eexists; (split; [reflexivity|]); (split; [reflexivity|]);
    (split; [split; [exact Hs|simpl; apply lookup_insert_eq]|]); simpl;
    by rewrite ?app_nil_r.
Qed.

Lemma run_gated_installed_pending cookie calls : forall m st,
  installed cookie m st ->
  pending_io_ops (run_gated cookie calls st).2 =
    pending_io_ops st ++
    replicate (if add_to_pending_io_ops m
               then would_block_returns (run_gated cookie calls st).1 else 0%nat)
              cookie.
Proof.
  induction calls as [|[d cmd] calls IH]; intros m st Hi; simpl.
  - destruct (add_to_pending_io_ops m); simpl; by rewrite app_nil_r.
  - destruct (gated_installed_pending _ _ _ d cmd Hi) as (o & st' & Hg & _ & Hi' & Hp).
    rewrite Hg. specialize (IH _ _ Hi').
    rewrite mode_keeps_add_to_pending_io_ops in IH.
    destruct (run_gated cookie calls st') as [os st'']. simpl in *.
    rewrite IH, Hp. unfold would_block_returns. simpl.
    destruct (add_to_pending_io_ops m), (is_would_block o); simpl;
      by rewrite <- ?app_assoc, ?app_nil_r.
Qed.

(** X5: whatever the engine and the cookie, a pass through the gate leaves
    the suspensions, the internal streams and the cluster map revision as
    they were, leaves the registry entry of every other connection id as it
    was, adds to the queue of notifications at most the caller's cookie,
    and only when it injects would-block; when it does not inject, the
    caller's error code is untouched. *)
Theorem should_inject_error_frame (dis_gen : Z) (cmd : Cmd) (cookie : Z)
    (err : ENGINE_ERROR_CODE) (st : EWB_Engine) :
  let r := should_inject_error dis_gen cmd cookie err st in
  suspended_map r.2 = suspended_map st /\
  dcp_stream r.2 = dcp_stream st /\
  clustermap_revno r.2 = clustermap_revno st /\
  (forall id, id <> get_connection_id cookie ->
     connection_map r.2 !! id = connection_map st !! id) /\
  (pending_io_ops r.2 = pending_io_ops st \/
   r.1 = (true, ENGINE_EWOULDBLOCK) /\
   pending_io_ops r.2 = pending_io_ops st ++ [cookie]) /\
  (r.1.1 = false -> r.1.2 = err).
Proof.
  unfold should_inject_error.
  destruct (is_connection_suspended cookie st); [by repeat split; auto|].
  destruct (connection_map st !! get_connection_id cookie) as [[first second]|] eqn:Hm;
    [|by repeat split; auto].
  destruct (Z.eqb_spec first cookie) as [->|Hne]; simpl.
  - assert (Hne : forall inject e, inject = false ->
              FaultInjectMode_should_inject_error second dis_gen cmd err = (inject, e, (FaultInjectMode_should_inject_error second dis_gen cmd err).2) ->
              e = err).
    { intros inject e -> He. destruct second; simpl in He;
        unfold ErrOnFirst_should_inject_error, ErrOnNextN_should_inject_error,
          ErrRandom_should_inject_error, ErrSequence_should_inject_error,
          ErrOnNoNotify_should_inject_error, CASMismatch_should_inject_error in He;
        repeat match type of He with context [if ?b then _ else _] => destruct b end;
        simpl in He; congruence. }
    destruct (FaultInjectMode_should_inject_error second dis_gen cmd err)
      as [[inject e] m'] eqn:Hstep. simpl in Hne.
    specialize (Hne inject e).
    destruct inject; simpl.
    + destruct (bool_decide_reflect (e = ENGINE_EWOULDBLOCK)) as [->|He]; simpl.
      * destruct (add_to_pending_io_ops m'); simpl; repeat split; auto;
          intros; by rewrite lookup_insert_ne.
      * repeat split; auto; intros; by rewrite ?lookup_insert_ne.
    + repeat split; auto; intros; by rewrite ?lookup_insert_ne.
  - repeat split; auto. intros. by rewrite lookup_delete_ne.
Qed.

Lemma run_mode_ErrOnNoNotify_issued e calls :
  (run_mode (ErrOnNoNotify e true) calls).1 = replicate (length calls) Forward.
Proof.
  induction calls as [|[d cmd] calls IH]; [done|]. simpl.
  unfold ErrOnNoNotify_should_inject_error. simpl.
  destruct (run_mode (ErrOnNoNotify e true) calls). simpl in *. by f_equal.
Qed.

(** X8: a disconnect erases the registry entry of the cookie's connection
    and nothing else: the entries of all other connection ids, the
    suspensions, the internal streams, the queued notifications and the
    cluster map revision stay.  Afterwards every gated operation of a
    cookie of that connection that is not suspended is forwarded and leaves
    the engine as it is; a second disconnect changes nothing. *)
Theorem handle_disconnect_removes_the_mode (cookie : Z) (st : EWB_Engine) :
  let st1 := handle_disconnect cookie st in
  connection_map st1 !! get_connection_id cookie = None /\
  (forall id, id <> get_connection_id cookie ->
     connection_map st1 !! id = connection_map st !! id) /\
  suspended_map st1 = suspended_map st /\
  dcp_stream st1 = dcp_stream st /\
  pending_io_ops st1 = pending_io_ops st /\
  clustermap_revno st1 = clustermap_revno st /\
  handle_disconnect cookie st1 = st1 /\
  (forall cookie2 dis_gen cmd,
     get_connection_id cookie2 = get_connection_id cookie ->
     is_connection_suspended cookie2 st = false ->
     gated dis_gen cmd cookie2 st1 = (Forward, st1)).
Proof.
  unfold handle_disconnect. simpl. split; [apply lookup_delete_eq|].
  split; [intros id Hid; by apply lookup_delete_ne|].
  split; [done|]. split; [done|]. split; [done|]. split; [done|]. split.
  - unfold set_connection_map. simpl. by rewrite delete_delete_eq.
  - intros cookie2 dis_gen cmd Hid Hs. unfold gated, should_inject_error.
    change (is_connection_suspended cookie2 (set_connection_map _ st))
      with (is_connection_suspended cookie2 st).
    rewrite Hs, Hid. simpl. by rewrite lookup_delete_eq.
Qed.

(** X9: when a cookie of a connection whose mode is registered under
    another cookie makes a gated operation, the mode is lost for the
    registered cookie too: every later gated operation of the registered
    cookie is forwarded, and nothing is queued. *)
Theorem stale_eviction_drops_the_mode_for_its_owner (st : EWB_Engine)
    (cookie cookie2 : Z) (m : FaultInjectMode) (dis_gen : Z) (cmd : Cmd)
    (calls : list (Z * Cmd)) :
  installed cookie m st ->
  cookie2 <> cookie ->
  get_connection_id cookie2 = get_connection_id cookie ->
  is_connection_suspended cookie2 st = false ->
  let st1 := (gated dis_gen cmd cookie2 st).2 in
  run_gated cookie calls st1 = (replicate (length calls) Forward, st1) /\
  pending_io_ops st1 = pending_io_ops st.
Proof.
  intros [Hs Hm] Hne Hid Hs2 st1.
  assert (Hev : gated dis_gen cmd cookie2 st =
                (Forward, set_connection_map
                            (delete (get_connection_id cookie) (connection_map st)) st)).
  { unfold gated, should_inject_error. rewrite Hs2, Hid, Hm. simpl.
    by destruct (Z.eqb_spec cookie cookie2) as [Heq|_]; [congruence|]. }
  subst st1. rewrite Hev. simpl. split; [|done].
  set (st1 := set_connection_map _ st).
  assert (Hg : forall d c, gated d c cookie st1 = (Forward, st1)).
  { intros d c. unfold gated, should_inject_error.
    change (is_connection_suspended cookie st1) with (is_connection_suspended cookie st).
    rewrite Hs. subst st1. simpl. by rewrite lookup_delete_eq. }
  induction calls as [|[d c] calls IH]; [done|]. simpl. by rewrite Hg, IH.
Qed.

(** ** The control channel *)

(** X10: a control request with one of the six installing modes replies
    success and registers the new mode under the caller's cookie for its
    connection id, whatever was registered there: installing a second mode
    afterwards gives the engine that installing the second alone gives;
    with no entry before, a disconnect right after the install gives back
    the engine as it was; and on a cookie that is not suspended the next
    gated operation meets the new mode. *)
Theorem unknown_command_installs_the_last_mode (dis_gen cookie : Z)
    (mode : EWBEngineMode) (value : Z) (e : ENGINE_ERROR_CODE) (key : string)
    (m : FaultInjectMode) (st : EWB_Engine) :
  new_mode mode value e = Some m ->
  let st1 :=
    set_connection_map (<[get_connection_id cookie := (cookie, m)]> (connection_map st)) st in
  unknown_command dis_gen cookie (EwouldblockCtl (Some mode) value e key) st =
    (Return ENGINE_SUCCESS, Some Success, st1) /\
  (forall dis_gen2 mode2 value2 e2 key2 m2,
     new_mode mode2 value2 e2 = Some m2 ->
     unknown_command dis_gen2 cookie (EwouldblockCtl (Some mode2) value2 e2 key2) st1 =
     unknown_command dis_gen2 cookie (EwouldblockCtl (Some mode2) value2 e2 key2) st) /\
  (connection_map st !! get_connection_id cookie = None ->
   handle_disconnect cookie st1 = st) /\
  (is_connection_suspended cookie st = false -> installed cookie m st1).
Proof.
  intros Hm st1.
  assert (Hinst : forall d mo v er k mm s,
            new_mode mo v er = Some mm ->
            unknown_command d cookie (EwouldblockCtl (Some mo) v er k) s =
              (Return ENGINE_SUCCESS, Some Success,
               set_connection_map
                 (<[get_connection_id cookie := (cookie, mm)]> (connection_map s)) s)).
  { intros d mo v er k mm s H.
    destruct mo; simpl in H; try discriminate H; injection H as <-; simpl;
      by rewrite insert_delete_eq. }
  split; [by apply Hinst|]. split; [|split].
  - intros d2 mode2 v2 e2 k2 m2 H2. rewrite !(Hinst _ _ _ _ _ _ _ H2).
    subst st1. unfold set_connection_map. simpl. by rewrite insert_insert_eq.
  - intros Hnone. subst st1. unfold handle_disconnect, set_connection_map. simpl.
    rewrite delete_insert_id by done. by destruct st.
  - intros Hs. split; [exact Hs|]. subst st1. simpl. apply lookup_insert_eq.
Qed.

(** X11: a control request is not gated.  Whether the caller's cookie is
    suspended or not and whatever mode is installed, a control request
    (the two modes handled outside this model apart) is answered by the
    engine itself, never with would-block; it leaves the internal streams
    and the registry entries of other connections as they are, and unless
    it installs a mode it leaves the whole registry, the state of the
    installed mode included, as it is. *)
Theorem control_requests_bypass_the_gate (dis_gen cookie : Z)
    (mode : option EWBEngineMode) (value : Z) (e : ENGINE_ERROR_CODE)
    (key : string) (st : EWB_Engine) :
  mode <> Some BlockMonitorFile ->
  mode <> Some SetItemCas ->
  exists code reply st',
    unknown_command dis_gen cookie (EwouldblockCtl mode value e key) st =
      (Return code, reply, st') /\
    code <> ENGINE_EWOULDBLOCK /\
    dcp_stream st' = dcp_stream st /\
    (forall id, id <> get_connection_id cookie ->
       connection_map st' !! id = connection_map st !! id) /\
    ((mode ≫= fun mo => new_mode mo value e) = None ->
     connection_map st' = connection_map st).
Proof.
  intros Hb Hc.
  destruct mode as [[]|]; try congruence; simpl;
    unfold handleSuspend, handleResume, suspend, resume;
    try destruct (suspended_map st !! value);
    do 3 eexists; (split; [reflexivity|]); simpl;
    repeat split; try done;
    intros; by rewrite lookup_insert_ne, lookup_delete_ne.
Qed.

(** X12: [get_if] and [get_and_touch] answer would-block whenever the gate
    injects, whatever the injected error is.  When the installed mode
    injects another error than would-block, [get] returns that error while
    [get_if] and [get_and_touch] return would-block, and no notification
    is queued for the cookie. *)
Theorem get_if_answers_would_block_without_notification (st : EWB_Engine)
    (cookie dis_gen : Z) (m m' : FaultInjectMode) (e : ENGINE_ERROR_CODE) :
  installed cookie m st ->
  FaultInjectMode_should_inject_error m dis_gen GET ENGINE_SUCCESS = (true, e, m') ->
  e <> ENGINE_EWOULDBLOCK ->
  exists st',
    get dis_gen cookie st = (Return e, st') /\
    get_if dis_gen cookie st = (Return ENGINE_EWOULDBLOCK, st') /\
    get_and_touch dis_gen cookie st = (Return ENGINE_EWOULDBLOCK, st') /\
    pending_io_ops st' = pending_io_ops st.
Proof.
  intros [Hs Hm] Hstep He.
  unfold get, gated, get_if, get_and_touch, should_inject_error.
  rewrite Hs, Hm, Z.eqb_refl. simpl. rewrite Hstep.
  rewrite bool_decide_eq_false_2 by done. simpl. eauto.
Qed.

(** ** The notification thread *)

(** X13: however the threads that schedule notifications and the turns of
    the notification thread interleave, the calls of [notify_io_complete]
    made so far, followed by the cookies still queued, are the cookies
    queued at the start followed by the scheduled ones, in that order and
    each with [ENGINE_SUCCESS]: notifications are delivered first in,
    first out, none is lost and none is made twice. *)
Theorem notifications_are_delivered_in_order (actions : list queue_action)
    (st : EWB_Engine) :
  (run_queue actions st).1 ++
    map (fun c => (c, ENGINE_SUCCESS)) (pending_io_ops (run_queue actions st).2) =
  map (fun c => (c, ENGINE_SUCCESS)) (pending_io_ops st ++ scheduled actions).
Proof.
  revert st. induction actions as [|[c|] actions IH]; intros st; simpl.
  - by rewrite app_nil_r.
  - rewrite IH. simpl. by rewrite <- app_assoc.
  - unfold process_notification.
    destruct (pending_io_ops st) as [|c0 rest] eqn:Hq.
    + specialize (IH st). rewrite Hq in IH.
      by destruct (run_queue actions st).
    + specialize (IH (set_pending_io_ops rest st)). simpl in IH.
      destruct (run_queue actions (set_pending_io_ops rest st)). simpl in *.
      by rewrite IH.
Qed.

(** X14: left alone with a queue of [n] cookies, the inner loop of the
    notification thread ends after [n] turns: it has notified every queued
    cookie once, in queue order, with [ENGINE_SUCCESS], and the queue is
    empty; fewer turns do not end the loop. *)
Theorem process_notifications_drains_the_queue (fuel : nat) (st : EWB_Engine) :
  process_notifications fuel st =
    if (length (pending_io_ops st) <=? fuel)%nat
    then Some (map (fun c => (c, ENGINE_SUCCESS)) (pending_io_ops st),
               set_pending_io_ops [] st)
    else None.
Proof.
  revert st. induction fuel as [|fuel IH]; intros st.
  - simpl. unfold process_notification.
    destruct (pending_io_ops st) as [|c0 rest] eqn:Hq; simpl; [|done].
    do 2 f_equal. destruct st. simpl in *. by subst.
  - simpl. unfold process_notification.
    destruct (pending_io_ops st) as [|c0 rest] eqn:Hq; simpl.
    + do 2 f_equal. destruct st. simpl in *. by subst.
    + rewrite IH. simpl. by destruct (length rest <=? fuel)%nat.
Qed.

(** ** The block monitor *)

(** X15: the block-monitor-file control operation succeeds iff the path is
    not empty, the file exists, the token is free and the thread starts;
    then it replies success, registers the cookie under the token and adds
    one thread for the token and the path.  When it fails it sends no
    reply and adds no thread, and it leaves the engine as it was, except
    when only the start of the thread failed: then the cookie stays
    registered under the token, with no thread to resume it. *)
Theorem handleBlockMonitorFile_outcomes (isFile : string -> bool)
    (thread_started : bool) (cookie id : Z) (file : string) (st : EWB_Engine)
    (threads : list BlockMonitorThread) :
  let r := Handlers.handleBlockMonitorFile isFile thread_started cookie id file st threads in
  let registered := set_suspended_map (<[id := cookie]> (suspended_map st)) st in
  (r.1.1.1 = Return ENGINE_SUCCESS <->
   file <> EmptyString /\ isFile file = true /\
   suspended_map st !! id = None /\ thread_started = true) /\
  (r.1.1.1 = Return ENGINE_SUCCESS ->
   r = (Return ENGINE_SUCCESS, Some Success, registered,
        threads ++ [mkBlockMonitorThread id file])) /\
  (r.1.1.1 <> Return ENGINE_SUCCESS ->
   r.1.1.2 = None /\ r.2 = threads /\
   (r.1.2 = st \/
    thread_started = false /\ r.1.1.1 = Return ENGINE_FAILED /\ r.1.2 = registered /\
    is_connection_suspended cookie r.1.2 = true)).
Proof.
  unfold Handlers.handleBlockMonitorFile, suspend.
  destruct (bool_decide_reflect (file = EmptyString)) as [->|Hf]; simpl.
  { split; [split; [done|intros (? & _); done]|]. split; [done|]. auto. }
  destruct (isFile file); simpl.
  2:{ split; [split; [done|intros (_ & ? & _); done]|]. split; [done|]. auto. }
  destruct (suspended_map st !! id) as [c0|] eqn:Hid; simpl.
  { split; [split; [done|intros (_ & _ & ? & _); done]|]. split; [done|]. auto. }
  destruct thread_started; simpl.
  - split; [split; [done|done]|]. split; [done|]. done.
  - split; [split; [done|intros (_ & _ & _ & ?); done]|]. split; [done|].
    intros _. split; [done|]. split; [done|]. right.
    repeat split. apply is_connection_suspended_true. exists id. simpl.
    apply lookup_insert_eq.
Qed.

Lemma BlockMonitorThread_run_polling polls t st :
  Forall (fun b => b = true) polls -> BlockMonitorThread_run polls t st = None.
Proof.
  induction polls as [|b polls IH]; intros H; [done|].
  inversion H as [|? ? -> H']; subst. simpl. by apply IH.
Qed.

Lemma BlockMonitorThread_run_gone polls t st :
  false ∈ polls -> BlockMonitorThread_run polls t st = Some (resume (bmt_id t) st).2.
Proof.
  induction polls as [|b polls IH]; intros H; [by apply elem_of_nil in H|].
  destruct b; simpl; [|done]. apply IH.
  by apply elem_of_cons in H as [?|?].
Qed.

(** X16: after a successful block-monitor-file request of a cookie, every
    gated operation on the cookie returns would-block and queues nothing
    for as long as the token is registered; the
    monitor thread does nothing while its polls find the file; once a poll
    finds it gone the thread resumes the token: the engine is then as it
    was before the request, with one notification for the cookie queued.
    Had the token been resumed by a control request in the meantime, the
    thread queues nothing more. *)
Theorem block_monitor_resumes_when_the_file_is_gone (isFile : string -> bool)
    (cookie id : Z) (file : string) (st : EWB_Engine)
    (threads : list BlockMonitorThread) (polls : list bool) :
  file <> EmptyString ->
  isFile file = true ->
  suspended_map st !! id = None ->
  let r := Handlers.handleBlockMonitorFile isFile true cookie id file st threads in
  let st1 := r.1.2 in
  let t := mkBlockMonitorThread id file in
  r.1.1.1 = Return ENGINE_SUCCESS /\
  r.2 = threads ++ [t] /\
  (forall dis_gen cmd, gated dis_gen cmd cookie st1 = (Return ENGINE_EWOULDBLOCK, st1)) /\
  (Forall (fun b => b = true) polls -> BlockMonitorThread_run polls t st1 = None) /\
  (false ∈ polls ->
   BlockMonitorThread_run polls t st1 =
     Some (set_pending_io_ops (pending_io_ops st ++ [cookie]) st) /\
   BlockMonitorThread_run polls t (resume id st1).2 = Some (resume id st1).2).
Proof.
  intros Hf He Hid r st1 t. subst r st1 t.
  unfold Handlers.handleBlockMonitorFile, suspend.
  rewrite bool_decide_eq_false_2, He, Hid by done. simpl.
  set (st1 := set_suspended_map _ st).
  split; [done|]. split; [done|]. split; [|split].
  - intros. apply gated_suspended. apply is_connection_suspended_true.
    exists id. simpl. apply lookup_insert_eq.
  - apply BlockMonitorThread_run_polling.
  - intros Hp. rewrite !BlockMonitorThread_run_gone by done. simpl. split.
    + f_equal. unfold resume. simpl. rewrite lookup_insert_eq. simpl.
      unfold schedule_notification, set_pending_io_ops, set_suspended_map. simpl.
      by rewrite delete_insert_id.
    + f_equal. unfold resume at 1. unfold resume. simpl.
      rewrite lookup_insert_eq. simpl. by rewrite lookup_delete_eq.
Qed.

(** ** Loading the real engine *)

Lemma find_Some_split c s : forall n,
  find c s = Some n ->
  s = (substring 0 n s ++ String c (substr (n + 1) s))%string /\
  find c (substring 0 n s) = None.
Proof.
  induction s as [|a s IH]; intros n H; [done|].
  simpl in H. destruct (Ascii.eqb_spec a c) as [->|Hne].
  - injection H as <-. simpl. done.
  - destruct (find c s) as [i|] eqn:Hi; [|done]. injection H as <-.
    destruct (IH i eq_refl) as [Hs Hn]. simpl.
    destruct (Ascii.eqb_spec a c); [done|]. rewrite Hn. split; [|done].
    change (String a s =
            String a (substring 0 i s ++ String c (substr (i + 1) s))%string).
    f_equal. exact Hs.
Qed.

Lemma find_app_None c name rest :
  find c name = None ->
  find c (name ++ String c rest) = Some (String.length name) /\
  substring 0 (String.length name) (name ++ String c rest) = name /\
  substr (String.length name + 1) (name ++ String c rest) = rest.
Proof.
  induction name as [|a name IH]; intros H; simpl.
  - rewrite Ascii.eqb_refl. by destruct rest.
  - simpl in H. destruct (Ascii.eqb a c); [done|].
    destruct (find c name) as [i|] eqn:Hi; [done|].
    destruct (IH eq_refl) as (-> & -> & ->). done.
Qed.

(** X17: [initialize] cuts its configuration at the first semicolon and
    loses nothing: the name of the real engine holds no semicolon, and
    either the configuration has none, is the name, and the real engine
    gets the empty configuration, or the configuration is the name, a
    semicolon and the configuration of the real engine, later semicolons
    included. *)
Theorem initialize_config_cuts_at_first_semicolon (config_str : string) :
  let name := (initialize_config config_str).1 in
  let real_config := (initialize_config config_str).2 in
  find ";"%char name = None /\
  (find ";"%char config_str = None /\ name = config_str /\ real_config = EmptyString \/
   config_str = (name ++ String ";"%char real_config)%string).
Proof.
  unfold initialize_config. simpl.
  destruct (find ";"%char config_str) as [n|] eqn:Hf; simpl.
  - destruct (find_Some_split _ _ _ Hf) as [Hs Hn]. split; [done|]. by right.
  - split; [done|]. by left.
Qed.

(** X18: for a name without semicolon, [initialize] reads the name and the
    configuration back from the name, a semicolon and the configuration,
    and reads the name with the empty configuration from the name
    alone. *)
Theorem initialize_config_round_trip (name real_config : string) :
  find ";"%char name = None ->
  initialize_config (name ++ String ";"%char real_config) = (name, real_config) /\
  initialize_config name = (name, EmptyString).
Proof.
  intros H. unfold initialize_config.
  destruct (find_app_None ";"%char name real_config H) as (-> & -> & ->).
  by rewrite H.
Qed.

(** ** Names of commands *)

(** X19: [to_string] gives distinct commands distinct names. *)
Theorem to_string_injective (cmd1 cmd2 : Cmd) :
  to_string cmd1 = to_string cmd2 <-> cmd1 = cmd2.
Proof.
  split; [|by intros ->].
  destruct cmd1, cmd2; simpl; intros H; try reflexivity; discriminate H.
Qed.

(** ** The internal DCP stream, further *)

Lemma prefix_app s : forall p t,
  String.prefix p s = true -> String.prefix p (s ++ t) = true.
Proof.
  induction s as [|b s IH]; intros p t H.
  - destruct p; [|done]. change (EmptyString ++ t)%string with t. by destruct t.
  - change (String b s ++ t)%string with (String b (s ++ t)%string).
    destruct p as [|a p]; [done|]. simpl in *.
    destruct (ascii_dec a b); [|done]. by apply IH.
Qed.

Lemma rfind_app_last c s :
  rfind c (s ++ String c EmptyString) = Some (String.length s) /\
  substr (String.length s + 1) (s ++ String c EmptyString) = EmptyString.
Proof.
  induction s as [|a s [IH1 IH2]]; simpl.
  - by rewrite Ascii.eqb_refl.
  - by rewrite IH1, IH2.
Qed.

(** X20: a stream opened under a name that starts with [ewb_internal] and
    holds no colon is not endless: it is registered with
    [2^64 - 1] items, and once started every [step] up to that number
    sends the canned mutation. *)
Theorem stream_without_count_has_uint64_max_items (st : EWB_Engine)
    (cookie : Z) (name : string) (start_seqno : Z) (k : nat) :
  String.prefix "ewb_internal" name = true ->
  rfind ":"%char name = None ->
  start_seqno <> 1 ->
  Z.of_nat k <= 2 ^ 64 - 1 ->
  let st1 := (open cookie name st).2 in
  let st2 := (stream_req cookie start_seqno 0 st1).2 in
  (open cookie name st).1 = Return ENGINE_SUCCESS /\
  dcp_stream st1 !! cookie = Some (false, 2 ^ 64 - 1) /\
  (run_step cookie k st2).1 = replicate k (Mutation canned_mutation).
Proof.
  intros Hp Hr Hs Hk st1 st2. subst st1 st2. unfold open. rewrite Hp, Hr.
  set (C := 2 ^ 64 - 1) in *. simpl.
  split; [done|]. split; [apply lookup_insert_eq|].
  unfold stream_req. simpl. rewrite lookup_insert_eq.
  destruct (Z.eqb_spec start_seqno 1); [done|]. simpl.
  edestruct (run_step_started cookie k C) as [-> _].
  - subst C. unfold is_uint64. lia.
  - simpl. apply lookup_insert_eq.
  - replace (k `min` Z.to_nat C)%nat with k by (subst C; lia).
    replace (k - Z.to_nat C)%nat with 0%nat by (subst C; lia).
    simpl. by rewrite app_nil_r.
Qed.

(** X21: nothing removes an internal stream.  After the connection
    disconnects and opens a stream under a name of the wrapped engine, and
    after [close_stream], the cookie still has its internal stream: [step]
    answers as it did before and is never handed to the wrapped engine. *)
Theorem internal_stream_outlives_disconnect (st : EWB_Engine) (cookie : Z)
    (name : string) (started : bool) (count : Z) :
  dcp_stream st !! cookie = Some (started, count) ->
  String.prefix "ewb_internal" name = false ->
  let st1 := (open cookie name (handle_disconnect cookie st)).2 in
  let st2 := (close_stream cookie st1).2 in
  dcp_stream st2 !! cookie = Some (started, count) /\
  (step cookie st2).1 = (step cookie st).1 /\
  (step cookie st2).1 <> Forward /\
  (step cookie st2).1 <> Return ENGINE_ENOTSUP.
Proof.
  intros Hs Hp st1 st2. subst st1 st2.
  unfold open, close_stream, dcp_hand_down. rewrite Hp.
  assert (Hst : forall s, dcp_stream s !! cookie = Some (started, count) ->
            (step cookie s).1 =
              if started && (0 <? count)
              then Mutation canned_mutation else Return ENGINE_EWOULDBLOCK).
  { intros s H. unfold step. rewrite H. by destruct (started && (0 <? count)). }
  destruct real_engine_dcp; simpl; (split; [done|]);
    rewrite !Hst by done; by destruct (started && (0 <? count)).
Qed.

(** X22: a cookie without internal stream that opens a stream under a
    name not starting with [ewb_internal] registers nothing: the open and
    every later [step] and [stream_req] are handed to the wrapped engine,
    or answered not-supported when it has no DCP, and leave the engine as
    it is. *)
Theorem engine_streams_are_handed_down (st : EWB_Engine) (cookie : Z)
    (name : string) (actions : list dcp_action) :
  dcp_stream st !! cookie = None ->
  String.prefix "ewb_internal" name = false ->
  let hand_down := if negb real_engine_dcp then Return ENGINE_ENOTSUP else Forward in
  open cookie name st = (hand_down, st) /\
  run_dcp cookie actions st = (replicate (length actions) hand_down, st).
Proof.
  intros Hs Hp hand_down. subst hand_down. split.
  - unfold open. rewrite Hp. by destruct real_engine_dcp.
  - induction actions as [|[|s] actions IH]; simpl; [done| |].
    + unfold step. rewrite Hs.
      destruct real_engine_dcp; simpl in *; by rewrite IH.
    + unfold stream_req. rewrite Hs.
      destruct real_engine_dcp; simpl in *; by rewrite IH.
Qed.

(** X23: on a started internal stream with [count] items left, stream
    requests neither stop the stream nor give it new items: a request with
    start sequence number 1 answers rollback, any other answers success,
    and a [step] sends the canned mutation iff fewer than [count] steps
    were made before it, requests in between not counting. *)
Theorem started_stream_counts_steps_only (cookie : Z) (actions : list dcp_action) :
  forall (count : Z) (st : EWB_Engine) (i : nat),
  is_uint64 count ->
  dcp_stream st !! cookie = Some (true, count) ->
  (run_dcp cookie actions st).1 !! i =
    match actions !! i with
    | Some DcpStep =>
        Some (if Z.of_nat (steps_before i actions) <? count
              then Mutation canned_mutation else Return ENGINE_EWOULDBLOCK)
    | Some (DcpStreamReq start_seqno) =>
        Some (if start_seqno =? 1 then Return ENGINE_ROLLBACK else Return ENGINE_SUCCESS)
    | None => None
    end.
Proof.
  induction actions as [|a actions IH]; intros count st i Hc Hs; [done|].
  destruct a as [|s]; simpl run_dcp.
  - unfold step. rewrite Hs. simpl.
    destruct (Z.ltb_spec 0 count) as [Hpos|Hz].
    + rewrite to_uint64_pred by done.
      specialize (IH (count - 1)
        (set_dcp_stream (<[cookie := (true, count - 1)]> (dcp_stream st)) st)).
      destruct (run_dcp cookie actions _) as [os st']. simpl in IH. simpl fst.
      destruct i as [|j]; simpl.
      * by destruct (Z.ltb_spec (Z.of_nat 0) count); [|lia].
      * rewrite IH; [|unfold is_uint64 in *; lia|apply lookup_insert_eq].
        destruct (actions !! j) as [[|s]|]; [|done|done].
        by destruct (Z.ltb_spec (Z.of_nat (steps_before j actions)) (count - 1)),
             (Z.ltb_spec (Z.of_nat (S (steps_before j actions))) count); try lia.
    + specialize (IH count st).
      destruct (run_dcp cookie actions st) as [os st']. simpl in IH. simpl fst.
      destruct i as [|j]; simpl.
      * by destruct (Z.ltb_spec (Z.of_nat 0) count); [lia|].
      * rewrite IH by done.
        destruct (actions !! j) as [[|s]|]; [|done|done].
        by destruct (Z.ltb_spec (Z.of_nat (steps_before j actions)) count),
             (Z.ltb_spec (Z.of_nat (S (steps_before j actions))) count); try lia.
  - unfold stream_req. rewrite Hs.
    destruct (Z.eqb_spec s 1) as [->|Hne].
    + specialize (IH count st).
      destruct (run_dcp cookie actions st) as [os st']. simpl in IH. simpl fst.
      destruct i as [|j]; simpl; [done|]. by apply IH.
    + specialize (IH count
        (set_dcp_stream (<[cookie := (true, count)]> (dcp_stream st)) st)).
      destruct (run_dcp cookie actions _) as [os st']. simpl in IH. simpl fst.
      destruct i as [|j]; simpl.
      * by destruct (Z.eqb_spec s 1).
      * apply IH; [done|apply lookup_insert_eq].
Qed.

(** X24: a stream name that starts with [ewb_internal] and ends in a
    colon, the count left empty, makes [open] throw: it returns no error
    code and registers no stream. *)
Theorem open_with_empty_count_throws (st : EWB_Engine) (cookie : Z) (name : string) :
  String.prefix "ewb_internal" name = true ->
  open cookie (name ++ ":") st = (Throw stoull_error, st).
Proof.
  intros Hp. unfold open.
  rewrite (prefix_app _ _ ":"%string Hp).
  destruct (rfind_app_last ":"%char name) as [-> ->]. done.
Qed.

(** * Every gated operation *)

(** Each operation asks the gate with its command and [ENGINE_SUCCESS],
    is forwarded when the gate does not inject, and answers with the
    injected error otherwise. *)
Lemma call_asks_the_gate dis_gen op cookie st :
  call dis_gen op cookie st =
    ((if (should_inject_error dis_gen (kind_of op) cookie ENGINE_SUCCESS st).1.1
      then answer op (should_inject_error dis_gen (kind_of op) cookie ENGINE_SUCCESS st).1.2
      else Forward),
     (should_inject_error dis_gen (kind_of op) cookie ENGINE_SUCCESS st).2).
Proof.
  destruct op; simpl;
    unfold allocate, allocate_ex, remove, get, get_if, get_and_touch, get_locked,
      unlock, get_meta, store, store_if, get_stats, gated;
    try destruct (bool_decide (operation = OPERATION_CAS));
    match goal with
    | |- context [should_inject_error ?d ?c ?k ?e ?s] =>
        destruct (should_inject_error d c k e s) as [[[] ?] ?]
    end; reflexivity.
Qed.

Lemma mode_injects_its_error m dis_gen cmd err :
  ((FaultInjectMode_should_inject_error m dis_gen cmd err).1.1 = true ->
   (FaultInjectMode_should_inject_error m dis_gen cmd err).1.2 = injected_error_of m) /\
  injected_error_of (FaultInjectMode_should_inject_error m dis_gen cmd err).2 =
    injected_error_of m.
Proof.
  destruct m; simpl;
    unfold ErrOnFirst_should_inject_error, ErrOnNextN_should_inject_error,
      ErrRandom_should_inject_error, ErrSequence_should_inject_error,
      ErrOnNoNotify_should_inject_error, CASMismatch_should_inject_error;
    repeat match goal with |- context [if ?b then _ else _] => destruct b end;
    simpl; split; (reflexivity || discriminate).
Qed.

Lemma answer_not_forward op err : is_forward (answer op err) = false.
Proof. by destruct op. Qed.

Lemma call_installed cookie m st dis_gen op :
  installed cookie m st ->
  exists st',
    call dis_gen op cookie st =
      (answer_as op
         (if (FaultInjectMode_should_inject_error m dis_gen (kind_of op) ENGINE_SUCCESS).1.1
          then Return (FaultInjectMode_should_inject_error m dis_gen (kind_of op)
                         ENGINE_SUCCESS).1.2
          else Forward), st') /\
    installed cookie
      (FaultInjectMode_should_inject_error m dis_gen (kind_of op) ENGINE_SUCCESS).2 st' /\
    pending_io_ops st' =
      pending_io_ops st ++
      (if (FaultInjectMode_should_inject_error m dis_gen (kind_of op) ENGINE_SUCCESS).1.1
          && bool_decide (injected_error_of m = ENGINE_EWOULDBLOCK)
          && add_to_pending_io_ops m
       then [cookie] else []).
Proof.
  intros [Hs Hm]. rewrite call_asks_the_gate. unfold should_inject_error.
  rewrite Hs, Hm, Z.eqb_refl. simpl.
  pose proof (mode_keeps_add_to_pending_io_ops m dis_gen (kind_of op) ENGINE_SUCCESS) as Hadd.
  pose proof (mode_injects_its_error m dis_gen (kind_of op) ENGINE_SUCCESS) as [Herr _].
  destruct (FaultInjectMode_should_inject_error m dis_gen (kind_of op) ENGINE_SUCCESS)
    as [[inject err] m']. simpl in *. rewrite Hadd.
  destruct inject; simpl.
  - rewrite (Herr eq_refl).
    destruct (bool_decide (injected_error_of m = ENGINE_EWOULDBLOCK)),
      (add_to_pending_io_ops m); simpl;
      eexists; (split; [reflexivity|]);
      (split; [split; [exact Hs|simpl; apply lookup_insert_eq]|]); simpl;
      by rewrite ?app_nil_r.
  - eexists. split; [reflexivity|].
    split; [split; [exact Hs|simpl; apply lookup_insert_eq]|]. simpl.
    by rewrite app_nil_r.
Qed.

Lemma run_ops_installed cookie ops : forall m st i dis_gen op,
  installed cookie m st ->
  ops !! i = Some (dis_gen, op) ->
  (run_ops cookie ops st).1 !! i = answer_as op <$> (run_mode m (kinds ops)).1 !! i.
Proof.
  induction ops as [|[d0 op0] ops IH]; intros m st i dis_gen op Hi Hop; [done|].
  simpl run_ops. simpl kinds. simpl run_mode.
  destruct (call_installed _ _ _ d0 op0 Hi) as (st' & Hc & Hi' & _). rewrite Hc.
  destruct (FaultInjectMode_should_inject_error m d0 (kind_of op0) ENGINE_SUCCESS)
    as [[inject err] m']. simpl in *.
  specialize (IH m' st' (pred i) dis_gen op Hi').
  destruct (run_ops cookie ops st') as [os st''].
  destruct (run_mode m' (kinds ops)) as [os' m'']. simpl in *.
  destruct i as [|j]; simpl in *.
  - injection Hop as -> ->. by destruct inject.
  - by apply IH.
Qed.

Lemma kinds_lookup ops i dis_gen op :
  ops !! i = Some (dis_gen, op) -> kinds ops !! i = Some (dis_gen, kind_of op).
Proof. intros H. unfold kinds. by rewrite list_lookup_fmap, H. Qed.

Lemma run_ops_installed_pending cookie ops : forall m st,
  installed cookie m st ->
  pending_io_ops (run_ops cookie ops st).2 =
    pending_io_ops st ++
    replicate (if bool_decide (injected_error_of m = ENGINE_EWOULDBLOCK)
                  && add_to_pending_io_ops m
               then not_forwarded (run_ops cookie ops st).1 else 0%nat)
              cookie.
Proof.
  induction ops as [|[d op] ops IH]; intros m st Hi; simpl.
  - destruct (_ && _); simpl; by rewrite app_nil_r.
  - destruct (call_installed _ _ _ d op Hi) as (st' & Hc & Hi' & Hp). rewrite Hc.
    specialize (IH _ _ Hi').
    rewrite mode_keeps_add_to_pending_io_ops in IH.
    rewrite (proj2 (mode_injects_its_error m d (kind_of op) ENGINE_SUCCESS)) in IH.
    destruct (run_ops cookie ops st') as [os st'']. simpl in *.
    rewrite IH, Hp. unfold not_forwarded. simpl.
    destruct ((FaultInjectMode_should_inject_error m d (kind_of op) ENGINE_SUCCESS).1.1);
      simpl; rewrite ?answer_not_forward; simpl;
      destruct (bool_decide (injected_error_of m = ENGINE_EWOULDBLOCK)),
        (add_to_pending_io_ops m); simpl;
      by rewrite <- ?app_assoc, ?app_nil_r.
Qed.

Lemma kind_of_not_NONE op : kind_of op <> NONE.
Proof. destruct op; simpl; try done; by destruct (bool_decide _). Qed.

(** C3, as the code has it: with [ErrOnFirst] installed for a cookie, a
    gated operation on the cookie, whichever of the gated operations it
    is, is passed to the wrapped engine iff its kind is the kind of the
    gated operation just before it (no kind before the first).  When the
    kind differs the operation, [get_if] and [get_and_touch] apart, returns
    the injected error ([allocate_ex] throws it).  So the first call of a
    kind is injected and a call that repeats the kind of the call just
    before it is forwarded; a kind seen earlier is injected again once
    another kind came in between. *)
Theorem ErrOnFirst_injects_when_kind_changes_every_operation (st : EWB_Engine)
    (cookie : Z) (e : ENGINE_ERROR_CODE) (ops : list (Z * engine_op)) (i : nat)
    (dis_gen : Z) (op : engine_op) :
  installed cookie (new_ErrOnFirst e) st ->
  ops !! i = Some (dis_gen, op) ->
  ((run_ops cookie ops st).1 !! i = Some Forward <->
   kind_before NONE (kinds ops) i = kind_of op) /\
  (kind_before NONE (kinds ops) i <> kind_of op ->
   op <> OpGetIf -> op <> OpGetAndTouch ->
   (run_ops cookie ops st).1 !! i =
     Some (match op with
           | OpAllocateEx => Throw (engine_error e)
           | _ => Return e
           end)) /\
  (kind_of op ∉ (take i (kinds ops)).*2 ->
   kind_before NONE (kinds ops) i <> kind_of op).
Proof.
  intros Hi Hop.
  rewrite (run_ops_installed cookie ops _ _ i dis_gen op Hi Hop).
  unfold new_ErrOnFirst.
  rewrite (run_mode_ErrOnFirst e (kinds ops) NONE i dis_gen (kind_of op)
             (kinds_lookup _ _ _ _ Hop)). simpl.
  split; [|split].
  - destruct (bool_decide_reflect (kind_before NONE (kinds ops) i = kind_of op))
      as [Heq|Hne]; simpl.
    + done.
    + split; [|done]. intros H. injection H as H.
      pose proof (answer_not_forward op e) as Ha. by rewrite H in Ha.
  - intros Hne Hg1 Hg2. rewrite bool_decide_eq_false_2 by done. simpl.
    by destruct op.
  - intros Hfresh. destruct i as [|j]; simpl.
    + intros H. by apply (kind_of_not_NONE op).
    + assert (Hj : is_Some (kinds ops !! j)).
      { apply lookup_lt_is_Some. apply kinds_lookup, lookup_lt_Some in Hop. lia. }
      destruct Hj as [[d' c'] Hj]. rewrite Hj. simpl. intros ->.
      apply Hfresh. apply list_elem_of_fmap. exists (d', kind_of op). split; [done|].
      apply list_elem_of_lookup. exists j. rewrite lookup_take_lt by lia. done.
Qed.

(** X6: on a registered, not suspended cookie, through any run of gated
    operations: when the injected error of the installed mode is
    would-block and the mode notifies, the queue of notifications gains
    exactly one entry for the cookie per operation that is not forwarded;
    otherwise, for [ErrOnNoNotify] or another injected error, it gains
    none, also for a [get_if] or [get_and_touch] that answers
    would-block. *)
Theorem notifications_match_injected_would_block (st : EWB_Engine) (cookie : Z)
    (m : FaultInjectMode) (ops : list (Z * engine_op)) :
  installed cookie m st ->
  pending_io_ops (run_ops cookie ops st).2 =
    pending_io_ops st ++
    replicate (if bool_decide (injected_error_of m = ENGINE_EWOULDBLOCK)
                  && add_to_pending_io_ops m
               then not_forwarded (run_ops cookie ops st).1 else 0%nat)
              cookie.
Proof. intros Hi. by apply run_ops_installed_pending. Qed.

Lemma run_mode_ErrOnNoNotify_lookup e calls i :
  (i < length calls)%nat ->
  (run_mode (ErrOnNoNotify e false) calls).1 !! i =
    Some (match i with O => Return e | S _ => Forward end).
Proof.
  intros Hlt. destruct calls as [|[d cmd] calls]; [simpl in Hlt; lia|].
  simpl run_mode. unfold ErrOnNoNotify_should_inject_error. simpl.
  pose proof (run_mode_ErrOnNoNotify_issued e calls) as H.
  destruct (run_mode (ErrOnNoNotify e true) calls) as [os m]. simpl in *. subst os.
  destruct i as [|j]; [done|]. simpl. apply lookup_replicate_2. simpl in Hlt. lia.
Qed.

(** X7: with [ErrOnNoNotify] installed for a cookie, the first gated
    operation on the cookie is answered with the injected error, which
    [get_if] and [get_and_touch] report as would-block and [allocate_ex]
    throws; every later one is forwarded; and no notification is ever
    queued, not even when the error is would-block. *)
Theorem ErrOnNoNotify_injects_once_and_never_notifies (st : EWB_Engine)
    (cookie : Z) (e : ENGINE_ERROR_CODE) (ops : list (Z * engine_op)) (i : nat)
    (dis_gen : Z) (op : engine_op) :
  installed cookie (new_ErrOnNoNotify e) st ->
  ops !! i = Some (dis_gen, op) ->
  (run_ops cookie ops st).1 !! i =
    Some (match i with
          | O => match op with
                 | OpGetIf | OpGetAndTouch => Return ENGINE_EWOULDBLOCK
                 | OpAllocateEx => Throw (engine_error e)
                 | _ => Return e
                 end
          | S _ => Forward
          end) /\
  pending_io_ops (run_ops cookie ops st).2 = pending_io_ops st.
Proof.
  intros Hi Hop. split.
  - rewrite (run_ops_installed cookie ops _ _ i dis_gen op Hi Hop).
    unfold new_ErrOnNoNotify. rewrite run_mode_ErrOnNoNotify_lookup.
    + by destruct i.
    + unfold kinds. rewrite length_map. by apply lookup_lt_Some in Hop.
  - rewrite (run_ops_installed_pending cookie ops _ _ Hi). simpl.
    rewrite andb_false_r. simpl. by rewrite app_nil_r.
Qed.

(** X25: with [ErrOnNextN] of count [n] installed for a cookie, of any
    sequence of gated operations on the cookie the first [n] are answered
    with the injected error, which [get_if] and [get_and_touch] report as
    would-block and [allocate_ex] throws, and every later one is
    forwarded. *)
Theorem ErrOnNextN_every_operation (st : EWB_Engine) (cookie n : Z)
    (e : ENGINE_ERROR_CODE) (ops : list (Z * engine_op)) (i : nat)
    (dis_gen : Z) (op : engine_op) :
  is_uint32 n ->
  installed cookie (new_ErrOnNextN e n) st ->
  ops !! i = Some (dis_gen, op) ->
  (run_ops cookie ops st).1 !! i =
    Some (if Z.of_nat i <? n
          then match op with
               | OpGetIf | OpGetAndTouch => Return ENGINE_EWOULDBLOCK
               | OpAllocateEx => Throw (engine_error e)
               | _ => Return e
               end
          else Forward).
Proof.
  intros Hn Hi Hop.
  rewrite (run_ops_installed cookie ops _ _ i dis_gen op Hi Hop).
  unfold new_ErrOnNextN. rewrite run_mode_ErrOnNextN by done.
  rewrite list_lookup_imap, (kinds_lookup _ _ _ _ Hop). simpl.
  by destruct (Z.of_nat i <? n).
Qed.

End Engine.

(** C2, the code at a failing input: with [ErrOnNextN] of count 1 and
    injected error not-found installed for cookie 17, the first gated
    operation returns would-block, not the injected error, when it is
    [get_if] or [get_and_touch]; [get] returns the injected error. *)
Theorem ErrOnNextN_get_if_returns_would_block :
  installed example_connection_id 17 (new_ErrOnNextN ENGINE_KEY_ENOENT 1)
    (engine_with_mode (new_ErrOnNextN ENGINE_KEY_ENOENT 1)) /\
  (get_if example_connection_id 0 17
     (engine_with_mode (new_ErrOnNextN ENGINE_KEY_ENOENT 1))).1 =
    Return ENGINE_EWOULDBLOCK /\
  (get_and_touch example_connection_id 0 17
     (engine_with_mode (new_ErrOnNextN ENGINE_KEY_ENOENT 1))).1 =
    Return ENGINE_EWOULDBLOCK /\
  (get example_connection_id 0 17
     (engine_with_mode (new_ErrOnNextN ENGINE_KEY_ENOENT 1))).1 =
    Return ENGINE_KEY_ENOENT.
Proof. repeat split; reflexivity. Qed.


Lemma suspended_cookie_blocks_until_resume_witness :
  suspended_map example_engine !! 7 = Some 16 /\
  gated example_connection_id 0 GET 16 example_engine =
    (Return ENGINE_EWOULDBLOCK, example_engine) /\
  exists st2, resume 7 (run_gated example_connection_id 16 [(0, GET); (0, STORE)] example_engine).2 = (true, st2) /\
    pending_io_ops st2 = [16].
Proof.
  pose proof (suspended_cookie_blocks_until_resume example_connection_id example_engine 16) as [_ H].
  assert (H7 : suspended_map example_engine !! 7 = Some 16) by reflexivity.
  destruct (H 7 H7) as (_ & Hg & _ & Hr).
  split; [exact H7|]. split; [apply Hg|].
  destruct (Hr [(0, GET); (0, STORE)]) as (_ & st2 & Hres & _ & _ & Hp).
  exists st2. split; [exact Hres|exact Hp].
Defined.

Lemma ErrOnNextN_first_n_then_forward_witness :
  is_uint32 2 /\
  installed example_connection_id 17 (new_ErrOnNextN ENGINE_EWOULDBLOCK 2) example_engine /\
  (run_gated example_connection_id 17 [(0, GET); (0, GET); (0, GET)] example_engine).1 !! 1%nat =
    Some (Return ENGINE_EWOULDBLOCK) /\
  (run_gated example_connection_id 17 [(0, GET); (0, GET); (0, GET)] example_engine).1 !! 2%nat =
    Some Forward.
Proof.
  assert (Hn : is_uint32 2) by (unfold is_uint32; lia).
  assert (Hi : installed example_connection_id 17
                 (new_ErrOnNextN ENGINE_EWOULDBLOCK 2) example_engine)
    by (split; reflexivity).
  split; [exact Hn|]. split; [exact Hi|]. split.
  - apply (ErrOnNextN_first_n_then_forward example_connection_id example_engine 17 2
             ENGINE_EWOULDBLOCK [(0, GET); (0, GET); (0, GET)] 1 Hn Hi). simpl. lia.
  - apply (ErrOnNextN_first_n_then_forward example_connection_id example_engine 17 2
             ENGINE_EWOULDBLOCK [(0, GET); (0, GET); (0, GET)] 2 Hn Hi). simpl. lia.
Defined.

(** C3 as stated fails: after GET and STORE, the second GET, a kind
    already seen, returns the injected error again. *)
Lemma ErrOnFirst_repeated_kind_injects_again :
  (run_gated example_connection_id 17 [(0, GET); (0, STORE); (0, GET)]
     (engine_with_mode (new_ErrOnFirst ENGINE_EWOULDBLOCK))).1 =
    [Return ENGINE_EWOULDBLOCK; Return ENGINE_EWOULDBLOCK; Return ENGINE_EWOULDBLOCK] /\
  ~ (forall get_connection_id st cookie e calls i d cmd,
       installed get_connection_id cookie (new_ErrOnFirst e) st ->
       calls !! i = Some (d, cmd) ->
       cmd ∈ (take i calls).*2 ->
       (run_gated get_connection_id cookie calls st).1 !! i = Some Forward).
Proof.
  split; [reflexivity|]. intros H.
  specialize (H example_connection_id
                (engine_with_mode (new_ErrOnFirst ENGINE_EWOULDBLOCK)) 17
                ENGINE_EWOULDBLOCK [(0, GET); (0, STORE); (0, GET)] 2%nat 0 GET).
  assert (Hin : GET ∈ (take 2 [(0, GET); (0, STORE); (0, GET)]).*2)
    by (simpl; apply list_elem_of_here).
  specialize (H ltac:(split; reflexivity) eq_refl Hin).
  vm_compute in H. discriminate H.
Qed.

Lemma ErrOnFirst_injects_when_kind_changes_witness :
  installed example_connection_id 17 (new_ErrOnFirst ENGINE_EWOULDBLOCK)
    (engine_with_mode (new_ErrOnFirst ENGINE_EWOULDBLOCK)) /\
  (run_gated example_connection_id 17 [(0, GET); (0, GET); (0, STORE); (0, GET)]
     (engine_with_mode (new_ErrOnFirst ENGINE_EWOULDBLOCK))).1 !! 1%nat = Some Forward /\
  (run_gated example_connection_id 17 [(0, GET); (0, GET); (0, STORE); (0, GET)]
     (engine_with_mode (new_ErrOnFirst ENGINE_EWOULDBLOCK))).1 !! 3%nat =
    Some (Return ENGINE_EWOULDBLOCK).
Proof.
  assert (Hi : installed example_connection_id 17 (new_ErrOnFirst ENGINE_EWOULDBLOCK)
                 (engine_with_mode (new_ErrOnFirst ENGINE_EWOULDBLOCK)))
    by (split; reflexivity).
  split; [exact Hi|]. split.
  - exact (proj1 (ErrOnFirst_injects_when_kind_changes example_connection_id _ 17
             ENGINE_EWOULDBLOCK [(0, GET); (0, GET); (0, STORE); (0, GET)] 1 0 GET
             Hi eq_refl)).
  - exact (proj1 (ErrOnFirst_injects_when_kind_changes example_connection_id _ 17
             ENGINE_EWOULDBLOCK [(0, GET); (0, GET); (0, STORE); (0, GET)] 3 0 GET
             Hi eq_refl)).
Defined.

(** The third scenario of the specification: mask [0b10110], six GETs. *)
Lemma ErrSequence_follows_mask_witness :
  installed example_connection_id 17 (new_ErrSequence ENGINE_EWOULDBLOCK 22)
    (engine_with_mode (new_ErrSequence ENGINE_EWOULDBLOCK 22)) /\
  (run_gated example_connection_id 17 (replicate 6 (0, GET))
     (engine_with_mode (new_ErrSequence ENGINE_EWOULDBLOCK 22))).1 !! 0%nat = Some Forward /\
  (run_gated example_connection_id 17 (replicate 6 (0, GET))
     (engine_with_mode (new_ErrSequence ENGINE_EWOULDBLOCK 22))).1 !! 4%nat =
    Some (Return ENGINE_EWOULDBLOCK).
Proof.
  assert (Hi : installed example_connection_id 17 (new_ErrSequence ENGINE_EWOULDBLOCK 22)
                 (engine_with_mode (new_ErrSequence ENGINE_EWOULDBLOCK 22)))
    by (split; reflexivity).
  split; [exact Hi|]. split.
  - apply (ErrSequence_follows_mask example_connection_id _ 17 22 ENGINE_EWOULDBLOCK
             (replicate 6 (0, GET)) 0 Hi). simpl. lia.
  - apply (ErrSequence_follows_mask example_connection_id _ 17 22 ENGINE_EWOULDBLOCK
             (replicate 6 (0, GET)) 4 Hi). simpl. lia.
Defined.

(** The second scenario of the specification: STORE, then four CAS. *)
Lemma CASMismatch_is_ErrOnNextN_on_cas_witness :
  is_uint32 3 /\
  installed example_connection_id 17 (new_CASMismatch 3)
    (engine_with_mode (new_CASMismatch 3)) /\
  installed example_connection_id 17 (new_ErrOnNextN ENGINE_KEY_EEXISTS 3)
    (engine_with_mode (new_ErrOnNextN ENGINE_KEY_EEXISTS 3)) /\
  outcomes_of_cas_calls [(0, STORE); (0, CAS); (0, CAS); (0, CAS); (0, CAS)]
    (run_gated example_connection_id 17
       [(0, STORE); (0, CAS); (0, CAS); (0, CAS); (0, CAS)]
       (engine_with_mode (new_CASMismatch 3))).1 =
    [Return ENGINE_KEY_EEXISTS; Return ENGINE_KEY_EEXISTS; Return ENGINE_KEY_EEXISTS; Forward].
Proof.
  assert (Hn : is_uint32 3) by (unfold is_uint32; lia).
  assert (Hi : installed example_connection_id 17 (new_CASMismatch 3)
                 (engine_with_mode (new_CASMismatch 3))) by (split; reflexivity).
  assert (Hin : installed example_connection_id 17 (new_ErrOnNextN ENGINE_KEY_EEXISTS 3)
                  (engine_with_mode (new_ErrOnNextN ENGINE_KEY_EEXISTS 3)))
    by (split; reflexivity).
  split; [exact Hn|]. split; [exact Hi|]. split; [exact Hin|].
  exact (proj2 (proj2 (proj2 (proj2
    (CASMismatch_is_ErrOnNextN_on_cas example_connection_id _ _ 17 3
       [(0, STORE); (0, CAS); (0, CAS); (0, CAS); (0, CAS)] Hn Hi Hin))))).
Defined.

(** C7 as stated fails: resuming a token nobody registered returns
    invalid-argument, not not-found. *)
Lemma handleResume_unregistered_is_einval :
  handleResume 16 9 new_EWB_Engine = (Return ENGINE_EINVAL, None, new_EWB_Engine) /\
  (handleResume 16 9 new_EWB_Engine).1.1 <> Return ENGINE_KEY_ENOENT.
Proof. split; [reflexivity|]. vm_compute. discriminate. Qed.

Lemma stale_entry_is_evicted_witness :
  is_connection_suspended 18 example_engine = false /\
  connection_map example_engine !! example_connection_id 18 =
    Some (17, new_ErrOnNextN ENGINE_EWOULDBLOCK 2) /\
  17 <> 18 /\
  gated example_connection_id 0 GET 18 example_engine =
    (Forward, set_connection_map
                (delete (example_connection_id 18) (connection_map example_engine))
                example_engine).
Proof.
  assert (Hs : is_connection_suspended 18 example_engine = false) by reflexivity.
  assert (Hm : connection_map example_engine !! example_connection_id 18 =
               Some (17, new_ErrOnNextN ENGINE_EWOULDBLOCK 2)) by reflexivity.
  assert (Hne : 17 <> 18) by lia.
  split; [exact Hs|]. split; [exact Hm|]. split; [exact Hne|].
  exact (proj1 (proj2
    (stale_entry_is_evicted example_connection_id example_engine 18 17 _ 0 GET
       ENGINE_SUCCESS Hs Hm Hne))).
Defined.

(** The sixth scenario of the specification: [ewb_internal:3], four
    steps. *)
Lemma internal_stream_request_and_steps_witness :
  is_uint64 3 /\
  exists st1,
    stream_req true 16 0 0 (open true 16 (stream_name 3) new_EWB_Engine).2 =
      (Return ENGINE_SUCCESS, 0, st1) /\
    (run_step true 16 4 st1).1 =
      [Mutation canned_mutation; Mutation canned_mutation; Mutation canned_mutation;
       Return ENGINE_EWOULDBLOCK].
Proof.
  assert (Hc : is_uint64 3) by (unfold is_uint64; lia).
  split; [exact Hc|].
  destruct (internal_stream_request_and_steps true new_EWB_Engine 16 3 0 Hc)
    as (_ & _ & _ & _ & H).
  destruct (H 0 ltac:(lia)) as (st1 & Hr & _ & Hk).
  exists st1. split; [exact Hr|]. exact (proj1 (Hk 4%nat)).
Defined.

Lemma suspended_gate_leaves_registry_witness :
  is_connection_suspended 16 example_engine = true /\
  (should_inject_error example_connection_id 0 GET 16 ENGINE_SUCCESS example_engine).2 =
    example_engine /\
  run_gated example_connection_id 17 [(0, GET)]
    (resume 7 (run_gated example_connection_id 16 [(0, GET); (0, STORE)] example_engine).2).2 =
  run_gated example_connection_id 17 [(0, GET)] (resume 7 example_engine).2.
Proof.
  assert (Hs : is_connection_suspended 16 example_engine = true) by reflexivity.
  split; [exact Hs|].
  destruct (suspended_gate_leaves_registry example_connection_id example_engine 16 Hs)
    as [H1 H2].
  split.
  - exact (proj1 (H1 0 GET ENGINE_SUCCESS)).
  - exact (proj2 (H2 [(0, GET); (0, STORE)] 7 17 [(0, GET)])).
Defined.

(** ** The scenarios of the specification, run on the model *)

(** Scenario 1: [ErrOnNextN] with would-block and count 2, three GETs; two
    notifications are queued, in order. *)
Example scenario_next_n :
  let r := run_gated example_connection_id 17 (replicate 3 (0, GET))
             (engine_with_mode (new_ErrOnNextN ENGINE_EWOULDBLOCK 2)) in
  r.1 = [Return ENGINE_EWOULDBLOCK; Return ENGINE_EWOULDBLOCK; Forward] /\
  pending_io_ops r.2 = [17; 17].
Proof. split; reflexivity. Qed.

(** Scenario 2: [CASMismatch] with count 3; STORE, then four CAS. *)
Example scenario_cas_mismatch :
  (run_gated example_connection_id 17
     [(0, STORE); (0, CAS); (0, CAS); (0, CAS); (0, CAS)]
     (engine_with_mode (new_CASMismatch 3))).1 =
  [Forward; Return ENGINE_KEY_EEXISTS; Return ENGINE_KEY_EEXISTS;
   Return ENGINE_KEY_EEXISTS; Forward].
Proof. reflexivity. Qed.

(** Scenario 3: [ErrSequence] with mask [0b10110], six GETs. *)
Example scenario_sequence :
  (run_gated example_connection_id 17 (replicate 6 (0, GET))
     (engine_with_mode (new_ErrSequence ENGINE_EWOULDBLOCK 22))).1 =
  [Forward; Return ENGINE_EWOULDBLOCK; Return ENGINE_EWOULDBLOCK; Forward;
   Return ENGINE_EWOULDBLOCK; Forward].
Proof. reflexivity. Qed.

(** Scenario 4: suspend cookie 16 under token 7; a GET blocks and queues
    nothing; the resume queues one notification; the next GET passes. *)
Example scenario_suspend_resume :
  let st1 := (handleSuspend 16 7 new_EWB_Engine).2 in
  let r := get example_connection_id 0 16 st1 in
  let st2 := (handleResume 17 7 r.2).2 in
  r.1 = Return ENGINE_EWOULDBLOCK /\
  pending_io_ops r.2 = [] /\
  pending_io_ops st2 = [16] /\
  (get example_connection_id 0 16 st2).1 = Forward.
Proof. repeat split; reflexivity. Qed.

(** [ErrOnNoNotify] injects once and queues no notification. *)
Example scenario_no_notify :
  let r := run_gated example_connection_id 17 (replicate 2 (0, GET))
             (engine_with_mode (new_ErrOnNoNotify ENGINE_EWOULDBLOCK)) in
  r.1 = [Return ENGINE_EWOULDBLOCK; Forward] /\ pending_io_ops r.2 = [].
Proof. split; reflexivity. Qed.

(** [std::stoull] on some suffixes of stream names. *)
Example stoull_examples :
  stoull "10" = Some 10 /\ stoull " +7x" = Some 7 /\ stoull "" = None /\
  stoull "abc" = None /\ stoull "-1" = Some (2 ^ 64 - 1) /\
  stoull "18446744073709551616" = None /\
  stream_name 18446744073709551615 = "ewb_internal:18446744073709551615"%string.
Proof. repeat split; reflexivity. Qed.

(** ** The further properties on concrete engines *)

Lemma suspend_then_resume_round_trip_witness :
  suspended_map new_EWB_Engine !! 7 = None /\
  resume 7 (suspend 16 7 new_EWB_Engine).2 =
    (true, set_pending_io_ops [16] new_EWB_Engine).
Proof.
  assert (H : suspended_map new_EWB_Engine !! 7 = None) by reflexivity.
  split; [exact H|].
  exact (proj2 (suspend_then_resume_round_trip 16 7 new_EWB_Engine H)).
Defined.

Lemma stale_eviction_drops_the_mode_for_its_owner_witness :
  installed example_connection_id 17 (new_ErrOnNextN ENGINE_EWOULDBLOCK 2) example_engine /\
  18 <> 17 /\
  example_connection_id 18 = example_connection_id 17 /\
  is_connection_suspended 18 example_engine = false /\
  (run_gated example_connection_id 17 [(0, GET); (0, GET)]
     (gated example_connection_id 0 GET 18 example_engine).2).1 = [Forward; Forward].
Proof.
  assert (Hi : installed example_connection_id 17
                 (new_ErrOnNextN ENGINE_EWOULDBLOCK 2) example_engine)
    by (split; reflexivity).
  assert (Hne : 18 <> 17) by lia.
  assert (Hid : example_connection_id 18 = example_connection_id 17) by reflexivity.
  assert (Hs : is_connection_suspended 18 example_engine = false) by reflexivity.
  split; [exact Hi|]. split; [exact Hne|]. split; [exact Hid|]. split; [exact Hs|].
  exact (f_equal fst (proj1
    (stale_eviction_drops_the_mode_for_its_owner example_connection_id example_engine
       17 18 _ 0 GET [(0, GET); (0, GET)] Hi Hne Hid Hs))).
Defined.

Lemma unknown_command_installs_the_last_mode_witness :
  new_mode Next_N 2 ENGINE_EWOULDBLOCK = Some (new_ErrOnNextN ENGINE_EWOULDBLOCK 2) /\
  unknown_command example_connection_id example_handleBlockMonitorFile example_setItemCas
    0 17 (EwouldblockCtl (Some Next_N) 2 ENGINE_EWOULDBLOCK EmptyString) new_EWB_Engine =
    (Return ENGINE_SUCCESS, Some Success,
     engine_with_mode (new_ErrOnNextN ENGINE_EWOULDBLOCK 2)).
Proof.
  assert (Hm : new_mode Next_N 2 ENGINE_EWOULDBLOCK =
               Some (new_ErrOnNextN ENGINE_EWOULDBLOCK 2)) by reflexivity.
  split; [exact Hm|].
  exact (proj1
    (unknown_command_installs_the_last_mode example_connection_id
       example_handleBlockMonitorFile example_setItemCas
       0 17 Next_N 2 ENGINE_EWOULDBLOCK EmptyString _ new_EWB_Engine Hm)).
Defined.

(** Cookie 16, suspended under token 7, resumes itself. *)
Lemma control_requests_bypass_the_gate_witness :
  Some Resume <> Some BlockMonitorFile /\
  Some Resume <> Some SetItemCas /\
  exists code reply st',
    unknown_command example_connection_id example_handleBlockMonitorFile example_setItemCas
      0 16 (EwouldblockCtl (Some Resume) 7 ENGINE_SUCCESS EmptyString) example_engine =
      (Return code, reply, st') /\
    code <> ENGINE_EWOULDBLOCK.
Proof.
  assert (H1 : Some Resume <> Some BlockMonitorFile) by discriminate.
  assert (H2 : Some Resume <> Some SetItemCas) by discriminate.
  split; [exact H1|]. split; [exact H2|].
  destruct (control_requests_bypass_the_gate example_connection_id
              example_handleBlockMonitorFile example_setItemCas
              0 16 (Some Resume) 7 ENGINE_SUCCESS EmptyString example_engine H1 H2)
    as (code & reply & st' & Hu & Hc & _).
  exists code, reply, st'. split; [exact Hu|exact Hc].
Defined.

Lemma get_if_answers_would_block_without_notification_witness :
  installed example_connection_id 17 (new_ErrOnNextN ENGINE_KEY_ENOENT 1)
    (engine_with_mode (new_ErrOnNextN ENGINE_KEY_ENOENT 1)) /\
  FaultInjectMode_should_inject_error (new_ErrOnNextN ENGINE_KEY_ENOENT 1) 0 GET
    ENGINE_SUCCESS = (true, ENGINE_KEY_ENOENT, ErrOnNextN ENGINE_KEY_ENOENT 0) /\
  ENGINE_KEY_ENOENT <> ENGINE_EWOULDBLOCK /\
  exists st',
    get example_connection_id 0 17 (engine_with_mode (new_ErrOnNextN ENGINE_KEY_ENOENT 1)) =
      (Return ENGINE_KEY_ENOENT, st') /\
    get_if example_connection_id 0 17 (engine_with_mode (new_ErrOnNextN ENGINE_KEY_ENOENT 1)) =
      (Return ENGINE_EWOULDBLOCK, st') /\
    pending_io_ops st' = [].
Proof.
  assert (Hi : installed example_connection_id 17 (new_ErrOnNextN ENGINE_KEY_ENOENT 1)
                 (engine_with_mode (new_ErrOnNextN ENGINE_KEY_ENOENT 1)))
    by (split; reflexivity).
  assert (Hstep : FaultInjectMode_should_inject_error (new_ErrOnNextN ENGINE_KEY_ENOENT 1)
                    0 GET ENGINE_SUCCESS =
                  (true, ENGINE_KEY_ENOENT, ErrOnNextN ENGINE_KEY_ENOENT 0)) by reflexivity.
  assert (He : ENGINE_KEY_ENOENT <> ENGINE_EWOULDBLOCK) by discriminate.
  split; [exact Hi|]. split; [exact Hstep|]. split; [exact He|].
  destruct (get_if_answers_would_block_without_notification example_connection_id _ 17 0
              _ _ _ Hi Hstep He) as (st' & Hg & Hgi & _ & Hp).
  exists st'. split; [exact Hg|]. split; [exact Hgi|exact Hp].
Defined.

(** The fifth scenario of the specification: the file is found twice, then
    it is gone. *)
Lemma block_monitor_resumes_when_the_file_is_gone_witness :
  "lock"%string <> EmptyString /\
  suspended_map new_EWB_Engine !! 9 = None /\
  BlockMonitorThread_run [true; true; false] (mkBlockMonitorThread 9 "lock")
    (Handlers.handleBlockMonitorFile (fun _ => true) true 16 9 "lock" new_EWB_Engine []).1.2 =
    Some (set_pending_io_ops [16] new_EWB_Engine).
Proof.
  assert (Hf : "lock"%string <> EmptyString) by discriminate.
  assert (Hid : suspended_map new_EWB_Engine !! 9 = None) by reflexivity.
  split; [exact Hf|]. split; [exact Hid|].
  destruct (block_monitor_resumes_when_the_file_is_gone example_connection_id
              (fun _ => true) 16 9 "lock" new_EWB_Engine [] [true; true; false]
              Hf eq_refl Hid) as (_ & _ & _ & _ & H).
  refine (proj1 (H _)). do 2 apply list_elem_of_further. apply list_elem_of_here.
Defined.

Lemma initialize_config_round_trip_witness :
  find ";"%char "default_engine" = None /\
  initialize_config "default_engine;cache_size=1024;verbose" =
    ("default_engine"%string, "cache_size=1024;verbose"%string) /\
  initialize_config "default_engine" = ("default_engine"%string, EmptyString).
Proof.
  assert (H : find ";"%char "default_engine" = None) by reflexivity.
  split; [exact H|].
  exact (initialize_config_round_trip "default_engine" "cache_size=1024;verbose" H).
Defined.

Lemma stream_without_count_has_uint64_max_items_witness :
  String.prefix "ewb_internal" "ewb_internal" = true /\
  rfind ":"%char "ewb_internal" = None /\
  0 <> 1 /\
  Z.of_nat 5 <= 2 ^ 64 - 1 /\
  (run_step true 16 5
     (stream_req true 16 0 0 (open true 16 "ewb_internal" new_EWB_Engine).2).2).1 =
    replicate 5 (Mutation canned_mutation).
Proof.
  assert (H1 : String.prefix "ewb_internal" "ewb_internal" = true) by reflexivity.
  assert (H2 : rfind ":"%char "ewb_internal" = None) by reflexivity.
  assert (H3 : 0 <> 1) by lia.
  assert (H4 : Z.of_nat 5 <= 2 ^ 64 - 1) by lia.
  split; [exact H1|]. split; [exact H2|]. split; [exact H3|]. split; [exact H4|].
  exact (proj2 (proj2
    (stream_without_count_has_uint64_max_items true new_EWB_Engine 16 "ewb_internal"
       0 5 H1 H2 H3 H4))).
Defined.

Lemma internal_stream_outlives_disconnect_witness :
  dcp_stream (engine_with_stream true 3) !! 16 = Some (true, 3) /\
  String.prefix "ewb_internal" "replication" = false /\
  (step true 16
     (close_stream true 16
        (open true 16 "replication"
           (handle_disconnect example_connection_id 16 (engine_with_stream true 3))).2).2).1 =
    Mutation canned_mutation.
Proof.
  assert (H1 : dcp_stream (engine_with_stream true 3) !! 16 = Some (true, 3)) by reflexivity.
  assert (H2 : String.prefix "ewb_internal" "replication" = false) by reflexivity.
  split; [exact H1|]. split; [exact H2|].
  exact (proj1 (proj2
    (internal_stream_outlives_disconnect example_connection_id true
       (engine_with_stream true 3) 16 "replication" true 3 H1 H2))).
Defined.

Lemma engine_streams_are_handed_down_witness :
  dcp_stream new_EWB_Engine !! 16 = None /\
  String.prefix "ewb_internal" "replication" = false /\
  open false 16 "replication" new_EWB_Engine = (Return ENGINE_ENOTSUP, new_EWB_Engine) /\
  run_dcp false 16 [DcpStep; DcpStreamReq 0; DcpStep] new_EWB_Engine =
    (replicate 3 (Return ENGINE_ENOTSUP), new_EWB_Engine).
Proof.
  assert (H1 : dcp_stream new_EWB_Engine !! 16 = None) by reflexivity.
  assert (H2 : String.prefix "ewb_internal" "replication" = false) by reflexivity.
  split; [exact H1|]. split; [exact H2|].
  exact (engine_streams_are_handed_down false new_EWB_Engine 16 "replication"
           [DcpStep; DcpStreamReq 0; DcpStep] H1 H2).
Defined.

Lemma started_stream_counts_steps_only_witness :
  is_uint64 2 /\
  dcp_stream (engine_with_stream true 2) !! 16 = Some (true, 2) /\
  (run_dcp true 16 [DcpStep; DcpStreamReq 1; DcpStep; DcpStep]
     (engine_with_stream true 2)).1 !! 2%nat = Some (Mutation canned_mutation) /\
  (run_dcp true 16 [DcpStep; DcpStreamReq 1; DcpStep; DcpStep]
     (engine_with_stream true 2)).1 !! 3%nat = Some (Return ENGINE_EWOULDBLOCK).
Proof.
  assert (H1 : is_uint64 2) by (unfold is_uint64; lia).
  assert (H2 : dcp_stream (engine_with_stream true 2) !! 16 = Some (true, 2)) by reflexivity.
  split; [exact H1|]. split; [exact H2|]. split.
  - exact (started_stream_counts_steps_only true 16
             [DcpStep; DcpStreamReq 1; DcpStep; DcpStep] 2 _ 2 H1 H2).
  - exact (started_stream_counts_steps_only true 16
             [DcpStep; DcpStreamReq 1; DcpStep; DcpStep] 2 _ 3 H1 H2).
Defined.

Lemma open_with_empty_count_throws_witness :
  String.prefix "ewb_internal" "ewb_internal" = true /\
  open true 16 "ewb_internal:" new_EWB_Engine = (Throw stoull_error, new_EWB_Engine).
Proof.
  assert (H : String.prefix "ewb_internal" "ewb_internal" = true) by reflexivity.
  split; [exact H|].
  exact (open_with_empty_count_throws true new_EWB_Engine 16 "ewb_internal" H).
Defined.

(** ** Every gated operation, on concrete engines *)

(** After a GET, a [get_if] is forwarded; after a REMOVE, a GET is
    injected again. *)
Lemma ErrOnFirst_injects_when_kind_changes_every_operation_witness :
  installed example_connection_id 17 (new_ErrOnFirst ENGINE_KEY_ENOENT)
    (engine_with_mode (new_ErrOnFirst ENGINE_KEY_ENOENT)) /\
  (run_ops example_connection_id example_handleBlockMonitorFile example_setItemCas 17
     [(0, OpGet); (0, OpGetIf); (0, OpRemove); (0, OpGet)]
     (engine_with_mode (new_ErrOnFirst ENGINE_KEY_ENOENT))).1 !! 1%nat = Some Forward /\
  (run_ops example_connection_id example_handleBlockMonitorFile example_setItemCas 17
     [(0, OpGet); (0, OpGetIf); (0, OpRemove); (0, OpGet)]
     (engine_with_mode (new_ErrOnFirst ENGINE_KEY_ENOENT))).1 !! 3%nat =
    Some (Return ENGINE_KEY_ENOENT).
Proof.
  assert (Hi : installed example_connection_id 17 (new_ErrOnFirst ENGINE_KEY_ENOENT)
                 (engine_with_mode (new_ErrOnFirst ENGINE_KEY_ENOENT)))
    by (split; reflexivity).
  split; [exact Hi|]. split.
  - exact (proj2 (proj1
      (ErrOnFirst_injects_when_kind_changes_every_operation example_connection_id
         example_handleBlockMonitorFile example_setItemCas _ 17 ENGINE_KEY_ENOENT
         [(0, OpGet); (0, OpGetIf); (0, OpRemove); (0, OpGet)] 1 0 OpGetIf Hi eq_refl))
      eq_refl).
  - refine (proj1 (proj2
      (ErrOnFirst_injects_when_kind_changes_every_operation example_connection_id
         example_handleBlockMonitorFile example_setItemCas _ 17 ENGINE_KEY_ENOENT
         [(0, OpGet); (0, OpGetIf); (0, OpRemove); (0, OpGet)] 3 0 OpGet Hi eq_refl))
      _ _ _); discriminate.
Defined.

Lemma notifications_match_injected_would_block_witness :
  installed example_connection_id 17 (new_ErrOnNextN ENGINE_EWOULDBLOCK 2) example_engine /\
  pending_io_ops
    (run_ops example_connection_id example_handleBlockMonitorFile example_setItemCas 17
       [(0, OpGetIf); (0, OpGet); (0, OpGet)] example_engine).2 = [17; 17].
Proof.
  assert (Hi : installed example_connection_id 17
                 (new_ErrOnNextN ENGINE_EWOULDBLOCK 2) example_engine)
    by (split; reflexivity).
  split; [exact Hi|].
  exact (notifications_match_injected_would_block example_connection_id
           example_handleBlockMonitorFile example_setItemCas example_engine 17 _
           [(0, OpGetIf); (0, OpGet); (0, OpGet)] Hi).
Defined.

Lemma ErrOnNoNotify_injects_once_and_never_notifies_witness :
  installed example_connection_id 17 (new_ErrOnNoNotify ENGINE_KEY_ENOENT)
    (engine_with_mode (new_ErrOnNoNotify ENGINE_KEY_ENOENT)) /\
  (run_ops example_connection_id example_handleBlockMonitorFile example_setItemCas 17
     [(0, OpGetIf); (0, OpGet)]
     (engine_with_mode (new_ErrOnNoNotify ENGINE_KEY_ENOENT))).1 !! 0%nat =
    Some (Return ENGINE_EWOULDBLOCK) /\
  pending_io_ops
    (run_ops example_connection_id example_handleBlockMonitorFile example_setItemCas 17
       [(0, OpGetIf); (0, OpGet)]
       (engine_with_mode (new_ErrOnNoNotify ENGINE_KEY_ENOENT))).2 = [].
Proof.
  assert (Hi : installed example_connection_id 17 (new_ErrOnNoNotify ENGINE_KEY_ENOENT)
                 (engine_with_mode (new_ErrOnNoNotify ENGINE_KEY_ENOENT)))
    by (split; reflexivity).
  split; [exact Hi|].
  exact (ErrOnNoNotify_injects_once_and_never_notifies example_connection_id
           example_handleBlockMonitorFile example_setItemCas _ 17 ENGINE_KEY_ENOENT
           [(0, OpGetIf); (0, OpGet)] 0 0 OpGetIf Hi eq_refl).
Defined.

Lemma ErrOnNextN_every_operation_witness :
  is_uint32 1 /\
  installed example_connection_id 17 (new_ErrOnNextN ENGINE_KEY_ENOENT 1)
    (engine_with_mode (new_ErrOnNextN ENGINE_KEY_ENOENT 1)) /\
  (run_ops example_connection_id example_handleBlockMonitorFile example_setItemCas 17
     [(0, OpAllocateEx); (0, OpGet)]
     (engine_with_mode (new_ErrOnNextN ENGINE_KEY_ENOENT 1))).1 !! 0%nat =
    Some (Throw (engine_error ENGINE_KEY_ENOENT)) /\
  (run_ops example_connection_id example_handleBlockMonitorFile example_setItemCas 17
     [(0, OpAllocateEx); (0, OpGet)]
     (engine_with_mode (new_ErrOnNextN ENGINE_KEY_ENOENT 1))).1 !! 1%nat = Some Forward.
Proof.
  assert (Hn : is_uint32 1) by (unfold is_uint32; lia).
  assert (Hi : installed example_connection_id 17 (new_ErrOnNextN ENGINE_KEY_ENOENT 1)
                 (engine_with_mode (new_ErrOnNextN ENGINE_KEY_ENOENT 1)))
    by (split; reflexivity).
  split; [exact Hn|]. split; [exact Hi|]. split.
  - exact (ErrOnNextN_every_operation example_connection_id
             example_handleBlockMonitorFile example_setItemCas _ 17 1 ENGINE_KEY_ENOENT
             [(0, OpAllocateEx); (0, OpGet)] 0 0 OpAllocateEx Hn Hi eq_refl).
  - exact (ErrOnNextN_every_operation example_connection_id
             example_handleBlockMonitorFile example_setItemCas _ 17 1 ENGINE_KEY_ENOENT
             [(0, OpAllocateEx); (0, OpGet)] 1 0 OpGet Hn Hi eq_refl).
Defined.
